(** * Student records service (app.py): handlers over a PostgreSQL table

    A shallow embedding of [app.py]: the Flask handlers [get_students],
    [add_student], [update_student], [delete_student], [search_students]
    and the connection provider [get_db_connection], written in a small
    state-and-exception monad over a [world] that holds the [students]
    table, its id sequence, the open transaction and a log of the effects
    performed (connections, statements, commits, rollbacks, prints).

    Modelling conventions
    - Python values are [pyval]; JSON numbers are integers (floats are not
      modelled).  A string is the [string] of the bytes of its UTF-8
      encoding; the width of a column counts characters, not bytes.
    - A Python exception is an [exn]; a computation that lets one escape
      ends in [Raise].
    - The SQL of each handler is a constructor of [statement]; its meaning
      on the table follows the schema of [init_db] (NOT NULL, UNIQUE,
      PRIMARY KEY, VARCHAR widths, SERIAL id, DEFAULT CURRENT_TIMESTAMP).
    - What the database server does with a value of a JSON type other than
      the column's own (a number sent to a VARCHAR column, a string sent to
      the INTEGER column, ...), the text of its error messages and how
      [strftime] prints are left to a [platform] parameter: the theorems
      hold for every platform.
    - The link to the server can be lost at the statement or at the commit;
      a connection that has lost its link refuses [rollback]. *)

From Stdlib Require Import ZArith List String Ascii Bool Lia Permutation Sorted.
From Stdlib Require Import DecimalString.
Import ListNotations.

Local Open Scope string_scope.
Local Open Scope list_scope.
Local Open Scope Z_scope.

Set Warnings "-register-all".

(** ** Python values and exceptions *)

Module Py.

(** The values [request.json] can produce, and the values handed to
    [jsonify]. A dict is an association list; a lookup takes the first
    binding of the key. *)
Inductive pyval : Type :=
| PNone
| PBool (b : bool)
| PInt (z : Z)
| PStr (s : string)
| PList (l : list pyval)
| PDict (d : list (string * pyval)).

(** [bool(v)]: the test behind [if not v]. *)
Definition truthy (v : pyval) : bool :=
  match v with
  | PNone => false
  | PBool b => b
  | PInt z => negb (z =? 0)
  | PStr s => negb (s =? "")%string
  | PList l => match l with [] => false | _ :: _ => true end
  | PDict d => match d with [] => false | _ :: _ => true end
  end.

(** [type(v).__name__] *)
Definition type_name (v : pyval) : string :=
  match v with
  | PNone => "NoneType"
  | PBool _ => "bool"
  | PInt _ => "int"
  | PStr _ => "str"
  | PList _ => "list"
  | PDict _ => "dict"
  end.

Inductive exn_class : Type :=
| IntegrityError      (* psycopg2.IntegrityError: SQLSTATE class 23 *)
| DataError           (* psycopg2.DataError: SQLSTATE class 22 *)
| ProgrammingError
| OperationalError
| InterfaceError
| AttributeError
| KeyError
| TypeError
| ValueError
| BadRequest          (* werkzeug: the body is not parseable JSON *)
| OtherError.

(** An exception object; [exn_msg] is what [str(e)] gives. *)
Record exn : Type := Exn { exn_cls : exn_class; exn_msg : string }.

Definition is_integrity (e : exn) : bool :=
  match exn_cls e with IntegrityError => true | _ => false end.

Inductive result (A : Type) : Type :=
| Return (a : A)
| Raise (e : exn).
Arguments Return {A} a.
Arguments Raise {A} e.

Fixpoint lookup (k : string) (d : list (string * pyval)) : option pyval :=
  match d with
  | [] => None
  | (k', v) :: d' => if (k =? k')%string then Some v else lookup k d'
  end.

(** The dict with key [k] deleted. *)
Fixpoint remove (k : string) (d : list (string * pyval)) : list (string * pyval) :=
  match d with
  | [] => []
  | (k', v) :: d' => if (k =? k')%string then remove k d' else (k', v) :: remove k d'
  end.

Definition no_attribute (v : pyval) (attr : string) : exn :=
  Exn AttributeError ("'" ++ type_name v ++ "' object has no attribute '" ++ attr ++ "'").

(** The value of key [k] in dict [d], [default] when the key is absent. *)
Definition item (d : list (string * pyval)) (k : string) (default : pyval) : pyval :=
  match lookup k d with
  | Some v => v
  | None => default
  end.

(** [data.get(k, default)]: only a dict has [get]. *)
Definition get (data : pyval) (k : string) (default : pyval) : result pyval :=
  match data with
  | PDict d => Return (item d k default)
  | _ => Raise (no_attribute data "get")
  end.

(** [data[k]] for a string key. *)
Definition getitem (data : pyval) (k : string) : result pyval :=
  match data with
  | PDict d =>
      match lookup k d with
      | Some v => Return v
      | None => Raise (Exn KeyError ("'" ++ k ++ "'"))
      end
  | PStr _ => Raise (Exn TypeError "string indices must be integers")
  | PList _ => Raise (Exn TypeError "list indices must be integers or slices, not str")
  | _ => Raise (Exn TypeError ("'" ++ type_name data ++ "' object is not subscriptable"))
  end.

(** [s.startswith(p)] *)
Definition startswith (s p : string) : bool := String.prefix p s.

Fixpoint drop (n : nat) (s : string) : string :=
  match n, s with
  | O, _ => s
  | S n', String _ s' => drop n' s'
  | S _, EmptyString => EmptyString
  end.

Fixpoint take (n : nat) (s : string) : string :=
  match n, s with
  | S n', String c s' => String c (take n' s')
  | _, _ => EmptyString
  end.

(** [s.replace(old, new, 1)] for a non-empty [old]: the first occurrence. *)
Fixpoint replace_first (old new s : string) : string :=
  if String.prefix old s then new ++ drop (String.length old) s
  else match s with
       | EmptyString => EmptyString
       | String c s' => String c (replace_first old new s')
       end.

End Py.
Export Py.

(** ** The [students] table and the SQL of the handlers *)

(** A [TIMESTAMP] as the driver returns it (a Python [datetime]). *)
Record datetime : Type := Datetime {
  dt_year : nat; dt_month : nat; dt_day : nat;
  dt_hour : nat; dt_minute : nat; dt_second : nat }.

(** One row of [students], columns in the order of [CREATE TABLE]; the
    three NOT NULL columns and the primary key cannot hold NULL, the other
    columns hold [None] for NULL. *)
Module Student.
Record t : Type := Row {
  id : Z;
  student_id : string;
  name : string;
  email : string;
  phone : option string;
  course : option string;
  year : option Z;
  address : option string;
  created_at : option datetime }.
End Student.
Definition student : Type := Student.t.

(** The errors of the server whose text can reach a client. *)
Inductive pg_error : Type :=
| ValueTooLong (n : nat)   (* value too long for type character varying(n) *)
| IntegerOutOfRange        (* integer out of range *)
| SequenceLimit.           (* nextval: reached maximum value of sequence *)

(** What the code leaves to the server, the driver and the C library. *)
Record platform : Type := Platform {
  (** [str(e)] for an error of the server: its message in the language
      and the layout of the server *)
  message : pg_error -> string;
  (** the text the server stores when a value that is neither a string nor
      [None] is sent to a character column, or the error it (or the
      driver, adapting the value) raises *)
  text_of : pyval -> result string;
  (** the integer the server stores when a value that is neither an
      integer nor [None] is sent to the INTEGER column, or the error *)
  int4_of : pyval -> result Z;
  (** [datetime.strftime] *)
  strftime : datetime -> string -> string }.

Module Sql.

Definition rbind {A B : Type} (r : result A) (k : A -> result B) : result B :=
  match r with
  | Return a => k a
  | Raise e => Raise e
  end.

(** What psycopg2 refuses to send. *)
Fixpoint has_nul (s : string) : bool :=
  match s with
  | EmptyString => false
  | String c s' => (c =? "000")%char || has_nul s'
  end.

Definition nul_refused : exn :=
  Exn ValueError "A string literal cannot contain NUL (0x00) characters.".

(** The adaptation of a query parameter by psycopg2, before anything is
    sent: the error it raises, if any. A list is adapted element by
    element; a dict has no adapter. *)
Fixpoint adapt (v : pyval) : option exn :=
  match v with
  | PNone | PBool _ | PInt _ => None
  | PStr s => if has_nul s then Some nul_refused else None
  | PList l =>
      (fix each (l : list pyval) : option exn :=
         match l with
         | [] => None
         | x :: l' => match adapt x with Some e => Some e | None => each l' end
         end) l
  | PDict _ => Some (Exn ProgrammingError "can't adapt type 'dict'")
  end.

(** A byte that continues a character of several bytes in UTF-8. *)
Definition continuation (c : ascii) : bool :=
  let n := nat_of_ascii c in (128 <=? n)%nat && (n <? 192)%nat.

(** The number of characters of a string. *)
Fixpoint chars (s : string) : nat :=
  match s with
  | EmptyString => O
  | String c s' => if continuation c then chars s' else S (chars s')
  end.

(** The first [n] characters of a string. *)
Fixpoint take_chars (n : nat) (s : string) : string :=
  match s with
  | EmptyString => EmptyString
  | String c s' =>
      if continuation c then String c (take_chars n s')
      else match n with
           | O => EmptyString
           | S n' => String c (take_chars n' s')
           end
  end.

(** The string without its first [n] characters. *)
Fixpoint drop_chars (n : nat) (s : string) : string :=
  match s with
  | EmptyString => EmptyString
  | String c s' =>
      if continuation c then drop_chars n s'
      else match n with
           | O => s
           | S n' => drop_chars n' s'
           end
  end.

Fixpoint all_spaces (s : string) : bool :=
  match s with
  | EmptyString => true
  | String c s' => (c =? " ")%char && all_spaces s'
  end.

Definition too_long (P : platform) (n : nat) : exn :=
  Exn DataError (message P (ValueTooLong n)).

(** Storing a string in a [VARCHAR(n)] column: a value of more than [n]
    characters is an error unless the characters in excess are all
    spaces, which are cut. *)
Definition varchar (P : platform) (n : nat) (s : string) : result string :=
  if (chars s <=? n)%nat then Return s
  else if all_spaces (drop_chars n s) then Return (take_chars n s)
  else Raise (too_long P n).

(** A parameter as the value of a [VARCHAR(n)] column: what psycopg2
    refuses never reaches the server. *)
Definition to_varchar (P : platform) (n : nat) (v : pyval) : result (option string) :=
  match adapt v with
  | Some e => Raise e
  | None =>
      match v with
      | PNone => Return None
      | PStr s => rbind (varchar P n s) (fun s' => Return (Some s'))
      | _ => rbind (text_of P v) (fun s =>
             rbind (varchar P n s) (fun s' => Return (Some s')))
      end
  end.

(** A parameter as the value of a [TEXT] column. *)
Definition to_text (P : platform) (v : pyval) : result (option string) :=
  match adapt v with
  | Some e => Raise e
  | None =>
      match v with
      | PNone => Return None
      | PStr s => Return (Some s)
      | _ => rbind (text_of P v) (fun s => Return (Some s))
      end
  end.

Definition int4_min : Z := - 2 ^ 31.
Definition int4_max : Z := 2 ^ 31 - 1.

(** A parameter as the value of an [INTEGER] column. *)
Definition to_integer (P : platform) (v : pyval) : result (option Z) :=
  match adapt v with
  | Some e => Raise e
  | None =>
      match v with
      | PNone => Return None
      | PInt z =>
          if (int4_min <=? z) && (z <=? int4_max) then Return (Some z)
          else Raise (Exn DataError (message P IntegerOutOfRange))
      | _ => rbind (int4_of P v) (fun z => Return (Some z))
      end
  end.

(** The seven query parameters, in the order of the placeholders. *)
Record params : Type := Params {
  p_student_id : pyval; p_name : pyval; p_email : pyval; p_phone : pyval;
  p_course : pyval; p_year : pyval; p_address : pyval }.

(** The parameters as values of their columns. *)
Record candidate : Type := Candidate {
  c_student_id : option string; c_name : option string; c_email : option string;
  c_phone : option string; c_course : option string; c_year : option Z;
  c_address : option string }.

(** The first error psycopg2 raises adapting the parameters, in order. *)
Definition adapt_params (p : params) : option exn :=
  let first (a b : option exn) := match a with Some e => Some e | None => b end in
  first (adapt (p_student_id p))
    (first (adapt (p_name p))
       (first (adapt (p_email p))
          (first (adapt (p_phone p))
             (first (adapt (p_course p))
                (first (adapt (p_year p)) (adapt (p_address p))))))).

(** Conversion to the column types of [CREATE TABLE students]; of several
    unacceptable values, the first in column order is reported. *)
Definition convert (P : platform) (p : params) : result candidate :=
  rbind (to_varchar P 20 (p_student_id p)) (fun sid =>
  rbind (to_varchar P 100 (p_name p)) (fun nm =>
  rbind (to_varchar P 100 (p_email p)) (fun em =>
  rbind (to_varchar P 20 (p_phone p)) (fun ph =>
  rbind (to_varchar P 100 (p_course p)) (fun co =>
  rbind (to_integer P (p_year p)) (fun yr =>
  rbind (to_text P (p_address p)) (fun ad =>
  Return (Candidate sid nm em ph co yr ad)))))))).

(** The two integrity errors; their text is abridged (no handler shows
    or prints the text of an integrity error of these statements). *)
Definition not_null_violation : exn :=
  Exn IntegrityError "null value violates not-null constraint".

Definition unique_violation : exn :=
  Exn IntegrityError "duplicate key value violates unique constraint".

(** [INSERT INTO students (...) VALUES (...)] with id [i] drawn from the
    sequence and [created_at] defaulting to [now]. *)
Definition insert (i : Z) (now : datetime) (c : candidate) (rows : list student)
  : result (list student) :=
  match c_student_id c, c_name c, c_email c with
  | Some sid, Some nm, Some em =>
      if existsb (fun r => (Student.id r =? i)
                           || (Student.student_id r =? sid)%string
                           || (Student.email r =? em)%string) rows
      then Raise unique_violation
      else Return (rows ++ [Student.Row i sid nm em (c_phone c) (c_course c)
                              (c_year c) (c_address c) (Some now)])
  | _, _, _ => Raise not_null_violation
  end.

(** The row after [SET student_id = .., name = .., ...]: [id] and
    [created_at] are not in the SET list. *)
Definition overwrite (sid nm em : string) (c : candidate) (r : student) : student :=
  Student.Row (Student.id r) sid nm em (c_phone c) (c_course c) (c_year c)
    (c_address c) (Student.created_at r).

(** [UPDATE students SET ... WHERE id = i]: the new table and [rowcount]. *)
Definition update (i : Z) (c : candidate) (rows : list student)
  : result (list student * nat) :=
  match filter (fun r => Student.id r =? i) rows with
  | [] => Return (rows, O)
  | hit =>
      match c_student_id c, c_name c, c_email c with
      | Some sid, Some nm, Some em =>
          if existsb (fun r => negb (Student.id r =? i)
                               && ((Student.student_id r =? sid)%string
                                   || (Student.email r =? em)%string)) rows
             || (1 <? List.length hit)%nat
          then Raise unique_violation
          else Return (map (fun r => if Student.id r =? i
                                     then overwrite sid nm em c r else r) rows,
                       List.length hit)
      | _, _, _ => Raise not_null_violation
      end
  end.

(** [DELETE FROM students WHERE id = i]: the new table and [rowcount]. *)
Definition delete (i : Z) (rows : list student) : list student * nat :=
  (filter (fun r => negb (Student.id r =? i)) rows,
   List.length (filter (fun r => Student.id r =? i) rows)).

(** [ORDER BY id DESC], by insertion. *)
Fixpoint place (r : student) (sorted : list student) : list student :=
  match sorted with
  | [] => [r]
  | r' :: rest =>
      if Student.id r' <=? Student.id r then r :: sorted
      else r' :: place r rest
  end.

Fixpoint order_by_id_desc (rows : list student) : list student :=
  match rows with
  | [] => []
  | r :: rest => place r (order_by_id_desc rest)
  end.

Definition is_upper (c : ascii) : bool :=
  let n := nat_of_ascii c in (65 <=? n)%nat && (n <=? 90)%nat.

Definition lower (c : ascii) : ascii :=
  if is_upper c then ascii_of_nat (nat_of_ascii c + 32) else c.

Definition same_char (ci : bool) (c d : ascii) : bool :=
  if ci then (lower c =? lower d)%char else (c =? d)%char.

(** [lower] and [like] below take a string byte by byte: they are the
    server's on text in ASCII; on other text the server folds and counts
    by character, as its locale has it. *)

(** [t LIKE p] ([ci = false]) and [t ILIKE p] ([ci = true]) with the
    default escape character: [%] stands for any run of characters, [_]
    for any one character, a backslash takes the next pattern character
    literally. A pattern that ends in a lone backslash matches nothing
    here (the server may reject it instead); the handler never builds one,
    its patterns end in [%]. *)
Fixpoint like (ci : bool) (p : string) (t : string) {struct p} : bool :=
  match p with
  | EmptyString => match t with EmptyString => true | String _ _ => false end
  | String c p' =>
      if (c =? "%")%char then
        (fix skip (t : string) : bool :=
           like ci p' t
           || match t with
              | EmptyString => false
              | String _ t' => skip t'
              end) t
      else if (c =? "_")%char then
        match t with
        | EmptyString => false
        | String _ t' => like ci p' t'
        end
      else if (c =? "\")%char then
        match p' with
        | EmptyString => false
        | String c2 p'' =>
            match t with
            | EmptyString => false
            | String d t' => same_char ci c2 d && like ci p'' t'
            end
        end
      else
        match t with
        | EmptyString => false
        | String d t' => same_char ci c d && like ci p' t'
        end
  end.

Definition ilike (t p : string) : bool := like true p t.

(** [SELECT * FROM students WHERE name ILIKE p1 OR student_id ILIKE p2
    ORDER BY id DESC] *)
Definition search (p1 p2 : string) (rows : list student) : list student :=
  order_by_id_desc
    (filter (fun r => ilike (Student.name r) p1 || ilike (Student.student_id r) p2) rows).

End Sql.

(** ** The world of a request *)

(** The arguments of [psycopg2.connect]. *)
Inductive connect_args : Type :=
| Dsn (dsn : string) (sslmode : string)
| Keywords (host database user password port : string).

(** The statements the handlers send, with their parameters. *)
Inductive statement : Type :=
| SelectAll
    (* SELECT * FROM students ORDER BY id DESC *)
| InsertRow (p : Sql.params)
    (* INSERT INTO students (student_id, ..., address) VALUES (...) RETURNING id *)
| UpdateById (p : Sql.params) (i : Z)
    (* UPDATE students SET student_id = .., ..., address = .. WHERE id = i *)
| DeleteById (i : Z)
    (* DELETE FROM students WHERE id = i *)
| SelectLike (p1 p2 : string).
    (* SELECT * FROM students WHERE name ILIKE p1 OR student_id ILIKE p2
       ORDER BY id DESC *)

Inductive event : Type :=
| Connect (a : connect_args)
| Execute (q : statement)
| Commit
| Rollback
| CloseCursor
| Close
| Stdout (s : string).

(** Where a failure of the server or of the link can hit a request. *)
Inductive stage : Type := AtExecute | AtCommit.

(** A failure of the server or of the link: the error raised, and
    whether the connection has lost its link by it (the server went away)
    or stays usable (a cancelled or refused statement). *)
Record failure : Type := Failure { raised : exn; link_lost : bool }.

Record world : Type := World {
  environ : list (string * string);     (* os.environ *)
  table : list student;                 (* the committed rows of students *)
  seq : Z;                              (* last value of the id sequence *)
  session : option (list student);      (* rows as the open transaction sees them *)
  broken : bool;                        (* the open connection has lost its link *)
  server : connect_args -> option exn;  (* the error psycopg2.connect raises, if any *)
  fault : stage -> option failure;      (* the failure of the server or link, if any *)
  clock : datetime;                     (* CURRENT_TIMESTAMP *)
  log : list event }.                   (* effects performed, oldest first *)

Definition add_log (ev : event) (w : world) : world :=
  World (environ w) (table w) (seq w) (session w) (broken w) (server w) (fault w)
    (clock w) (log w ++ [ev]).

Definition set_session (s : option (list student)) (w : world) : world :=
  World (environ w) (table w) (seq w) s (broken w) (server w) (fault w) (clock w)
    (log w).

Definition set_broken (b : bool) (w : world) : world :=
  World (environ w) (table w) (seq w) (session w) b (server w) (fault w) (clock w)
    (log w).

Definition set_table (t : list student) (w : world) : world :=
  World (environ w) t (seq w) (session w) (broken w) (server w) (fault w) (clock w)
    (log w).

Definition set_seq (n : Z) (w : world) : world :=
  World (environ w) (table w) n (session w) (broken w) (server w) (fault w) (clock w)
    (log w).

(** A computation: runs in a world, returns or raises, leaves a world.
    The world survives a raise (what was logged or drawn stays so). *)
Definition M (A : Type) : Type := world -> result A * world.

Definition ret {A : Type} (a : A) : M A := fun w => (Return a, w).

Definition raise {A : Type} (e : exn) : M A := fun w => (Raise e, w).

Definition bind {A B : Type} (m : M A) (k : A -> M B) : M B :=
  fun w =>
    match m w with
    | (Return a, w') => k a w'
    | (Raise e, w') => (Raise e, w')
    end.

(** [try: m except Exception as e: h e] *)
Definition try_except {A : Type} (m : M A) (h : exn -> M A) : M A :=
  fun w =>
    match m w with
    | (Return a, w') => (Return a, w')
    | (Raise e, w') => h e w'
    end.

Definition lift {A : Type} (r : result A) : M A := fun w => (r, w).

Declare Scope py_scope.
Delimit Scope py_scope with py.
Notation "x <- m ;; k" := (bind m (fun x => k))
  (at level 61, m at next level, right associativity) : py_scope.
Notation "m ;; k" := (bind m (fun _ => k))
  (at level 61, right associativity) : py_scope.
Local Open Scope py_scope.

Definition emit (ev : event) : M unit := fun w => (Return tt, add_log ev w).

Definition print (s : string) : M unit := emit (Stdout s).

Fixpoint env_lookup (k : string) (env : list (string * string)) : option string :=
  match env with
  | [] => None
  | (k', v) :: env' => if (k =? k')%string then Some v else env_lookup k env'
  end.

(** [os.environ.get(k, default)] *)
Definition environ_get (k default : string) : M string :=
  fun w => (Return (match env_lookup k (environ w) with
                    | Some v => v
                    | None => default
                    end), w).

(** The module-level [DATABASE_URL], after the rewrite of the legacy
    scheme: [PNone] when the variable is unset. *)
Definition DATABASE_URL (env : list (string * string)) : pyval :=
  match env_lookup "DATABASE_URL" env with
  | None => PNone
  | Some url =>
      if truthy (PStr url) then
        if startswith url "postgres://"
        then PStr (replace_first "postgres://" "postgresql://" url)
        else PStr url
      else PStr url
  end.

(** A connection object; its transaction is the [session] of the world. *)
Inductive connection : Type := Connection.

Definition closed : exn := Exn InterfaceError "connection already closed".

(** [psycopg2.connect(...)] *)
Definition psycopg2_connect (a : connect_args) : M connection :=
  fun w =>
    let w := add_log (Connect a) w in
    match server w a with
    | Some e => (Raise e, w)
    | None => (Return Connection, set_session (Some (table w)) (set_broken false w))
    end.

(** What a cursor holds after [execute]. *)
Record cursor : Type := Cursor {
  rowcount : nat;
  fetchall : list student;
  returning : list Z }.

(** The first error psycopg2 raises adapting the parameters of a
    statement. *)
Definition adapt_statement (q : statement) : option exn :=
  match q with
  | InsertRow p | UpdateById p _ => Sql.adapt_params p
  | SelectLike p1 p2 =>
      match Sql.adapt (PStr p1) with
      | Some e => Some e
      | None => Sql.adapt (PStr p2)
      end
  | SelectAll | DeleteById _ => None
  end.

(** A failure hits the open connection. *)
Definition fail (f : failure) (w : world) : world :=
  set_broken (broken w || link_lost f) w.

(** [cur.execute(q, params)]: the parameters are adapted, then the
    statement is sent. The id of an INSERT is drawn from the sequence,
    which ends at the largest [INTEGER], before the constraints are
    checked, and a drawn value is never given back. *)
Definition execute (P : platform) (q : statement) : M cursor :=
  fun w =>
    let w := add_log (Execute q) w in
    match session w with
    | None => (Raise closed, w)
    | Some rows =>
        match adapt_statement q with
        | Some e => (Raise e, w)
        | None =>
            match fault w AtExecute with
            | Some f => (Raise (raised f), fail f w)
            | None =>
                match q with
                | SelectAll =>
                    let out := Sql.order_by_id_desc rows in
                    (Return (Cursor (List.length out) out []), w)
                | SelectLike p1 p2 =>
                    let out := Sql.search p1 p2 rows in
                    (Return (Cursor (List.length out) out []), w)
                | InsertRow p =>
                    match Sql.convert P p with
                    | Raise e => (Raise e, w)
                    | Return c =>
                        if Sql.int4_max <=? seq w
                        then (Raise (Exn DataError (message P SequenceLimit)), w)
                        else
                          let i := seq w + 1 in
                          let w := set_seq i w in
                          match Sql.insert i (clock w) c rows with
                          | Raise e => (Raise e, w)
                          | Return rows' =>
                              (Return (Cursor 1 [] [i]), set_session (Some rows') w)
                          end
                    end
                | UpdateById p i =>
                    match Sql.convert P p with
                    | Raise e => (Raise e, w)
                    | Return c =>
                        match Sql.update i c rows with
                        | Raise e => (Raise e, w)
                        | Return (rows', n) =>
                            (Return (Cursor n [] []), set_session (Some rows') w)
                        end
                    end
                | DeleteById i =>
                    let '(rows', n) := Sql.delete i rows in
                    (Return (Cursor n [] []), set_session (Some rows') w)
                end
            end
        end
    end.

(** [cur.fetchone()[0]] *)
Definition fetchone_0 (cur : cursor) : result Z :=
  match returning cur with
  | i :: _ => Return i
  | [] => Raise (Exn TypeError "'NoneType' object is not subscriptable")
  end.

(** [conn.commit()] *)
Definition commit : M unit :=
  fun w =>
    let w := add_log Commit w in
    match fault w AtCommit with
    | Some f => (Raise (raised f), fail f w)
    | None =>
        match session w with
        | None => (Raise closed, w)
        | Some rows => (Return tt, set_table rows w)
        end
    end.

(** [conn.rollback()]: refused by a connection that is closed or has
    lost its link. *)
Definition rollback : M unit :=
  fun w =>
    let w := add_log Rollback w in
    match session w with
    | None => (Raise closed, w)
    | Some _ =>
        if broken w then (Raise closed, w)
        else (Return tt, set_session (Some (table w)) w)
    end.

(** [cur.close()] *)
Definition cursor_close : M unit := emit CloseCursor.

(** [conn.close()]: what was not committed is lost. *)
Definition close : M unit :=
  fun w => (Return tt, set_session None (add_log Close w)).

(** ** The connection provider and the handlers *)

(** An HTTP response: [jsonify(body), status]. *)
Record response : Type := Response { body : pyval; status : Z }.

(** [jsonify({'error': msg}), code] *)
Definition error_response (msg : string) (code : Z) : response :=
  Response (PDict [("error", PStr msg)]) code.

(** The [else] branch of [get_db_connection]: local development. *)
Definition connect_local : M connection :=
  host <- environ_get "DB_HOST" "localhost" ;;
  database <- environ_get "DB_NAME" "study" ;;
  user <- environ_get "DB_USER" "postgres" ;;
  password <- environ_get "DB_PASSWORD" "@jk3" ;;
  port <- environ_get "DB_PORT" "5432" ;;
  psycopg2_connect (Keywords host database user password port).

(** [get_db_connection()] *)
Definition get_db_connection : M (option connection) :=
  try_except
    (conn <- (fun w =>
                match DATABASE_URL (environ w) with
                | PStr url =>
                    if truthy (PStr url)
                    then psycopg2_connect (Dsn url "require") w
                    else connect_local w
                | _ => connect_local w
                end) ;;
     ret (Some conn))
    (fun e =>
       print ("Database connection error: " ++ exn_msg e) ;;
       ret None).

Definition required_fields : list string := ["student_id"; "name"; "email"].

(** The validation loop of [add_student]: [Some r] when it returns [r]
    from the handler, [None] when it runs to its end. *)
Fixpoint validate (data : pyval) (fields : list string) : result (option response) :=
  match fields with
  | [] => Return None
  | field :: rest =>
      Sql.rbind (get data field PNone) (fun v =>
        if negb (truthy v)
        then Return (Some (error_response (field ++ " is required") 400))
        else validate data rest)
  end.

Section Handlers.

Variable P : platform.

(** The dict built for one row in [get_students] and [search_students]. *)
Definition student_dict (r : student) : pyval :=
  let opt (o : option string) : pyval :=
    match o with Some s => PStr s | None => PNone end in
  PDict [("id", PInt (Student.id r));
         ("student_id", PStr (Student.student_id r));
         ("name", PStr (Student.name r));
         ("email", PStr (Student.email r));
         ("phone", opt (Student.phone r));
         ("course", opt (Student.course r));
         ("year", match Student.year r with Some y => PInt y | None => PNone end);
         ("address", opt (Student.address r));
         ("created_at", match Student.created_at r with
                        | Some t => PStr (strftime P t "%Y-%m-%d %H:%M:%S")
                        | None => PNone
                        end)].

(** [GET /api/students] *)
Definition get_students : M response :=
  conn <- get_db_connection ;;
  match conn with
  | None => ret (error_response "Database connection failed" 500)
  | Some _ =>
      try_except
        (cur <- execute P SelectAll ;;
         let student_list := map student_dict (fetchall cur) in
         cursor_close ;;
         close ;;
         ret (Response (PList student_list) 200))
        (fun e =>
           print ("Error fetching students: " ++ exn_msg e) ;;
           ret (error_response (exn_msg e) 500))
  end.

(** [POST /api/students]; [request_json] is what evaluating
    [request.json] gives. *)
Definition add_student (request_json : result pyval) : M response :=
  data <- lift request_json ;;
  early <- lift (validate data required_fields) ;;
  match early with
  | Some r => ret r
  | None =>
      conn <- get_db_connection ;;
      match conn with
      | None => ret (error_response "Database connection failed" 500)
      | Some _ =>
          try_except
            (sid <- lift (getitem data "student_id") ;;
             nm <- lift (getitem data "name") ;;
             em <- lift (getitem data "email") ;;
             ph <- lift (get data "phone" (PStr "")) ;;
             co <- lift (get data "course" (PStr "")) ;;
             yr <- lift (get data "year" PNone) ;;
             ad <- lift (get data "address" (PStr "")) ;;
             cur <- execute P (InsertRow (Sql.Params sid nm em ph co yr ad)) ;;
             student_id <- lift (fetchone_0 cur) ;;
             commit ;;
             cursor_close ;;
             close ;;
             ret (Response (PDict [("message", PStr "Student added successfully");
                                   ("id", PInt student_id)]) 201))
            (fun e =>
               if is_integrity e then
                 rollback ;;
                 ret (error_response "Student ID or Email already exists" 400)
               else
                 rollback ;;
                 print ("Error adding student: " ++ exn_msg e) ;;
                 ret (error_response (exn_msg e) 500))
      end
  end.

(** [PUT /api/students/<int:id>] *)
Definition update_student (id : Z) (request_json : result pyval) : M response :=
  data <- lift request_json ;;
  conn <- get_db_connection ;;
  match conn with
  | None => ret (error_response "Database connection failed" 500)
  | Some _ =>
      try_except
        (sid <- lift (get data "student_id" PNone) ;;
         nm <- lift (get data "name" PNone) ;;
         em <- lift (get data "email" PNone) ;;
         ph <- lift (get data "phone" (PStr "")) ;;
         co <- lift (get data "course" (PStr "")) ;;
         yr <- lift (get data "year" PNone) ;;
         ad <- lift (get data "address" (PStr "")) ;;
         cur <- execute P (UpdateById (Sql.Params sid nm em ph co yr ad) id) ;;
         if (rowcount cur =? 0)%nat then
           rollback ;;
           ret (error_response "Student not found" 404)
         else
           commit ;;
           cursor_close ;;
           close ;;
           ret (Response (PDict [("message", PStr "Student updated successfully")]) 200))
        (fun e =>
           if is_integrity e then
             rollback ;;
             ret (error_response "Student ID or Email already exists" 400)
           else
             rollback ;;
             print ("Error updating student: " ++ exn_msg e) ;;
             ret (error_response (exn_msg e) 500))
  end.

(** [DELETE /api/students/<int:id>] *)
Definition delete_student (id : Z) : M response :=
  conn <- get_db_connection ;;
  match conn with
  | None => ret (error_response "Database connection failed" 500)
  | Some _ =>
      try_except
        (cur <- execute P (DeleteById id) ;;
         if (rowcount cur =? 0)%nat then
           rollback ;;
           ret (error_response "Student not found" 404)
         else
           commit ;;
           cursor_close ;;
           close ;;
           ret (Response (PDict [("message", PStr "Student deleted successfully")]) 200))
        (fun e =>
           rollback ;;
           print ("Error deleting student: " ++ exn_msg e) ;;
           ret (error_response (exn_msg e) 500))
  end.

(** [GET /api/students/search]; [arg] is the [query] parameter of the
    URL, [None] when it is absent. *)
Definition search_students (arg : option string) : M response :=
  let query := match arg with Some q => q | None => "" end in
  if negb (truthy (PStr query)) then ret (Response (PList []) 200)
  else
    conn <- get_db_connection ;;
    match conn with
    | None => ret (error_response "Database connection failed" 500)
    | Some _ =>
        try_except
          (cur <- execute P (SelectLike ("%" ++ query ++ "%") ("%" ++ query ++ "%")) ;;
           let student_list := map student_dict (fetchall cur) in
           cursor_close ;;
           close ;;
           ret (Response (PList student_list) 200))
          (fun e =>
             print ("Error searching students: " ++ exn_msg e) ;;
             ret (error_response (exn_msg e) 500))
    end.

End Handlers.

(** ** The routes *)

(** A request to one of the API routes. *)
Inductive api_call : Type :=
| GetStudents
| AddStudent (request_json : result pyval)
| UpdateStudent (id : Z) (request_json : result pyval)
| DeleteStudent (id : Z)
| SearchStudents (arg : option string).

(** The dispatch of [@app.route]. *)
Definition handle (P : platform) (c : api_call) : M response :=
  match c with
  | GetStudents => get_students P
  | AddStudent rj => add_student P rj
  | UpdateStudent id rj => update_student P id rj
  | DeleteStudent id => delete_student P id
  | SearchStudents arg => search_students P arg
  end.

(** The parameters the handlers bind to their statement, for a dict body:
    [data.get] with the defaults of the source ([data[k]] in [add_student]
    reads the same value once validation has passed). *)
Definition bound_params (d : list (string * pyval)) : Sql.params :=
  Sql.Params (item d "student_id" PNone) (item d "name" PNone) (item d "email" PNone)
    (item d "phone" (PStr "")) (item d "course" (PStr "")) (item d "year" PNone)
    (item d "address" (PStr "")).

(** Whether the dict passes the validation loop of [add_student]. *)
Definition all_required (d : list (string * pyval)) : bool :=
  forallb (fun k => truthy (item d k PNone)) required_fields.

(** The statement a request puts to the database, when its handler gets
    that far: a dict body that passes validation on create, a dict body on
    update, a non-empty query on search. *)
Definition statement_of (c : api_call) : option statement :=
  match c with
  | GetStudents => Some SelectAll
  | AddStudent (Return (PDict d)) =>
      if all_required d then Some (InsertRow (bound_params d)) else None
  | AddStudent _ => None
  | UpdateStudent id (Return (PDict d)) => Some (UpdateById (bound_params d) id)
  | UpdateStudent _ _ => None
  | DeleteStudent id => Some (DeleteById id)
  | SearchStudents (Some q) =>
      if (q =? "")%string then None
      else Some (SelectLike ("%" ++ q ++ "%") ("%" ++ q ++ "%"))
  | SearchStudents None => None
  end.

(** Whether the handler of the request calls [get_db_connection]. *)
Definition asks_for_connection (c : api_call) : bool :=
  match c with
  | GetStudents | DeleteStudent _ => true
  | AddStudent (Return (PDict d)) => all_required d
  | AddStudent _ => false
  | UpdateStudent _ (Return _) => true
  | UpdateStudent _ (Raise _) => false
  | SearchStudents (Some q) => negb (q =? "")%string
  | SearchStudents None => false
  end.

(** Whether the handler of the request commits after a statement that
    left the cursor [cur]. *)
Definition commits (c : api_call) (cur : cursor) : bool :=
  match c with
  | AddStudent _ => match returning cur with [] => false | _ :: _ => true end
  | UpdateStudent _ _ | DeleteStudent _ => negb (rowcount cur =? 0)%nat
  | GetStudents | SearchStudents _ => false
  end.

(** Whether the handler of [c] has a separate clause for [e]:
    [except psycopg2.IntegrityError] in [add_student], [update_student]. *)
Definition conflict_clause (c : api_call) (e : exn) : bool :=
  match c with
  | AddStudent _ | UpdateStudent _ _ => is_integrity e
  | _ => false
  end.

(** The arguments [get_db_connection] passes to [psycopg2.connect]. *)
Definition provider_args (env : list (string * string)) : connect_args :=
  let var k default := match env_lookup k env with Some v => v | None => default end in
  let keywords :=
    Keywords (var "DB_HOST" "localhost") (var "DB_NAME" "study")
      (var "DB_USER" "postgres") (var "DB_PASSWORD" "@jk3") (var "DB_PORT" "5432") in
  match DATABASE_URL env with
  | PStr url => if truthy (PStr url) then Dsn url "require" else keywords
  | _ => keywords
  end.

(** ** Substring search, for comparison with the ILIKE of the handler *)

(** [q] is a prefix of [t], letters compared without case. *)
Fixpoint iprefix (q t : string) : bool :=
  match q with
  | EmptyString => true
  | String c q' =>
      match t with
      | EmptyString => false
      | String d t' => (Sql.lower c =? Sql.lower d)%char && iprefix q' t'
      end
  end.

(** [q] occurs in [t], letters compared without case. *)
Fixpoint icontains (q t : string) : bool :=
  iprefix q t
  || match t with
     | EmptyString => false
     | String _ t' => icontains q t'
     end.

(** [t] with its letters in lower case. *)
Fixpoint lowercase (t : string) : string :=
  match t with
  | EmptyString => EmptyString
  | String c t' => String (Sql.lower c) (lowercase t')
  end.

(** The rows come with their ids from the highest down. *)
Definition descending (rows : list student) : Prop :=
  StronglySorted (fun a b => Student.id b <= Student.id a) rows.

(** No character of [q] is special in a LIKE pattern. *)
Fixpoint plain (q : string) : bool :=
  match q with
  | EmptyString => true
  | String c q' =>
      negb ((c =? "%")%char || (c =? "_")%char || (c =? "\")%char) && plain q'
  end.

(** ** A platform and a table for the examples *)

Definition pad2 (n : nat) : string :=
  let s := NilZero.string_of_uint (Nat.to_uint n) in
  if (n <? 10)%nat then "0" ++ s else s.

Definition newline : string := String (ascii_of_nat 10) EmptyString.

Definition quote : string := String (ascii_of_nat 34) EmptyString.

(** A platform for the examples: the messages of a server in English,
    integers print in decimal into character columns, everything else
    off its column's type is refused. *)
Definition sample_platform : platform :=
  Platform
    (fun e => match e with
              | ValueTooLong n =>
                  ("value too long for type character varying("
                     ++ NilZero.string_of_uint (Nat.to_uint n) ++ ")" ++ newline)%string
              | IntegerOutOfRange => ("integer out of range" ++ newline)%string
              | SequenceLimit =>
                  ("nextval: reached maximum value of sequence " ++ quote
                     ++ "students_id_seq" ++ quote ++ " (2147483647)" ++ newline)%string
              end)
    (fun v => match v with
              | PInt z => Return (NilZero.string_of_int (Z.to_int z))
              | _ => Raise (Exn ProgrammingError ("can't adapt type '" ++ type_name v ++ "'"))
              end)
    (fun v => Raise (Exn DataError "invalid input syntax for type integer"))
    (fun t _ =>
       (NilZero.string_of_uint (Nat.to_uint (dt_year t)) ++ "-" ++ pad2 (dt_month t)
          ++ "-" ++ pad2 (dt_day t) ++ " " ++ pad2 (dt_hour t) ++ ":"
          ++ pad2 (dt_minute t) ++ ":" ++ pad2 (dt_second t))%string).

Definition ana : student :=
  Student.Row 1 "S1" "Ana" "a@x.com" (Some "") (Some "") None (Some "")
    (Some (Datetime 2024 1 15 9 30 0)).

Definition bob : student :=
  Student.Row 2 "S2" "Bob" "b@x.com" (Some "555") (Some "Math") (Some 2) (Some "")
    (Some (Datetime 2024 1 16 10 0 5)).

(** A reachable database holding [ana] and [bob]. *)
Definition sample_world : world :=
  World [] [ana; bob] 2 None false (fun _ => None) (fun _ => None)
    (Datetime 2024 2 1 12 0 0) [].

(** The same with the database unreachable. *)
Definition offline_world : world :=
  World [] [ana; bob] 2 None false
    (fun _ => Some (Exn OperationalError "connection refused")) (fun _ => None)
    (Datetime 2024 2 1 12 0 0) [].

(** The same with the server going away at the statement. *)
Definition failing_world : world :=
  World [] [ana; bob] 2 None false (fun _ => None)
    (fun s => match s with
              | AtExecute =>
                  Some (Failure
                          (Exn OperationalError "server closed the connection unexpectedly")
                          true)
              | AtCommit => None
              end)
    (Datetime 2024 2 1 12 0 0) [].


(** A failure of the database while the handler of [c] runs statement [q]
    in world [w1]: the statement raises [e], or it returns and the commit
    that the handler then makes raises [e]; [wf] is the world the failure
    leaves. *)
Definition persistence_error (P : platform) (c : api_call) (q : statement)
           (w1 : world) (e : exn) (wf : world) : Prop :=
  execute P q w1 = (Raise e, wf)
  \/ (exists cur w2,
        execute P q w1 = (Return cur, w2)
        /\ commits c cur = true
        /\ commit w2 = (Raise e, wf)).

(** Whether the [except] clauses of the handler of [c] call
    [conn.rollback()]. *)
Definition rolls_back (c : api_call) : bool :=
  match c with
  | AddStudent _ | UpdateStudent _ _ | DeleteStudent _ => true
  | GetStudents | SearchStudents _ => false
  end.

(** The text is ASCII without NUL: every byte is a character of its own,
    and the server and [Sql.lower] fold the same letters. *)
Fixpoint ascii_text (s : string) : bool :=
  match s with
  | EmptyString => true
  | String c s' =>
      (1 <=? nat_of_ascii c)%nat && (nat_of_ascii c <? 128)%nat && ascii_text s'
  end.

(** The [student_id] or the [email] of body [d], as its column stores it,
    is that of a row of [rows]. *)
Definition duplicates (P : platform) (d : list (string * pyval)) (rows : list student)
  : Prop :=
  exists r,
    In r rows
    /\ (Sql.to_varchar P 20 (item d "student_id" PNone) = Return (Some (Student.student_id r))
        \/ Sql.to_varchar P 100 (item d "email" PNone) = Return (Some (Student.email r))).

(** ** Outcomes of a request, the constraints of the table, start-up *)

(** The world once [get_db_connection] has opened its connection. *)
Definition connected (w : world) : world :=
  set_session (Some (table w))
    (set_broken false (add_log (Connect (provider_args (environ w))) w)).

(** The world once [get_db_connection] has failed with [e]. *)
Definition unreachable (w : world) (e : exn) : world :=
  add_log (Stdout ("Database connection error: " ++ exn_msg e))
    (add_log (Connect (provider_args (environ w))) w).

(** The answer is one of the two success statuses the handlers use. *)
Definition success (r : response) : bool :=
  (status r =? 200) || (status r =? 201).

(** The ways the handler of [c] can end when run in [w]. *)
Inductive outcome (P : platform) (c : api_call) (w : world)
  : result response * world -> Prop :=
| NotAsked (r : result response) :
    asks_for_connection c = false ->
    outcome P c w (r, w)
| Unreachable (e : exn) :
    asks_for_connection c = true ->
    server w (provider_args (environ w)) = Some e ->
    outcome P c w
      (Return (error_response "Database connection failed" 500), unreachable w e)
| Failed (r : response) (w' : world) (evs : list event) (rows : list student) :
    asks_for_connection c = true ->
    server w (provider_args (environ w)) = None ->
    success r = false ->
    table w' = table w ->
    seq w <= seq w' <= seq w + 1 ->
    session w' = Some rows ->
    log w' = log w ++ evs ->
    ~ In Close evs ->
    outcome P c w (Return r, w')
| Escaped (w' : world) (evs : list event) (rows : list student)
          (st : stage) (f : failure) :
    asks_for_connection c = true ->
    server w (provider_args (environ w)) = None ->
    rolls_back c = true ->
    fault w st = Some f ->
    link_lost f = true ->
    table w' = table w ->
    seq w <= seq w' <= seq w + 1 ->
    session w' = Some rows ->
    log w' = log w ++ evs ->
    ~ In Close evs ->
    outcome P c w (Raise closed, w')
| Succeeded (r : response) (w' : world) (q : statement) (cur : cursor)
            (w2 : world) (rows2 : list student) :
    server w (provider_args (environ w)) = None ->
    success r = true ->
    statement_of c = Some q ->
    execute P q (connected w) = (Return cur, w2) ->
    session w2 = Some rows2 ->
    table w' = (if commits c cur then rows2 else table w) ->
    seq w' = seq w2 ->
    session w' = None ->
    log w' = log w2 ++ (if commits c cur then [Commit] else []) ++ [CloseCursor; Close] ->
    outcome P c w (Return r, w').


(** The constraints of [CREATE TABLE students]: [id] is the primary key,
    [student_id] and [email] are UNIQUE. *)
Definition wf_table (rows : list student) : Prop :=
  NoDup (map Student.id rows)
  /\ NoDup (map Student.student_id rows)
  /\ NoDup (map Student.email rows).

(** Every id in use was drawn from the sequence. *)
Definition ids_drawn (rows : list student) (n : Z) : Prop :=
  Forall (fun r => Student.id r <= n) rows.

(** The database at start-up: the [students] table may not exist yet.
    [present] says it is in the catalog, [creating] that the open
    transaction has created it. The log of the world lists the statements
    of the handlers; the DDL of [init_db] shows in these two fields. *)
Record startup : Type := Startup {
  base : world;
  present : bool;
  creating : bool }.

(** A computation of [M] run at start-up. *)
Definition at_startup {A : Type} (m : M A) (s : startup) : result A * startup :=
  match m (base s) with
  | (r, w') => (r, Startup w' (present s) (creating s))
  end.

(** [get_db_connection()] at start-up: a new connection has created
    nothing yet. *)
Definition connect_startup (s : startup) : result (option connection) * startup :=
  match get_db_connection (base s) with
  | (Return (Some conn), w') => (Return (Some conn), Startup w' (present s) false)
  | (r, w') => (r, Startup w' (present s) (creating s))
  end.

(** [cur.execute('CREATE TABLE IF NOT EXISTS students (...)')] *)
Definition create_table_if_not_exists (s : startup) : result unit * startup :=
  match fault (base s) AtExecute with
  | Some f => (Raise (raised f), Startup (fail f (base s)) (present s) (creating s))
  | None =>
      match session (base s) with
      | None => (Raise closed, s)
      | Some _ =>
          (Return tt, Startup (base s) (present s) (creating s || negb (present s)))
      end
  end.

(** [conn.commit()] at start-up: a table created in the transaction
    enters the catalog. *)
Definition commit_startup (s : startup) : result unit * startup :=
  match commit (base s) with
  | (Return u, w') => (Return u, Startup w' (present s || creating s) false)
  | (Raise e, w') => (Raise e, Startup w' (present s) (creating s))
  end.

(** [conn.close()] at start-up: what was not committed is lost. *)
Definition close_startup (s : startup) : result unit * startup :=
  match close (base s) with
  | (r, w') => (r, Startup w' (present s) false)
  end.

(** [init_db()] *)
Definition init_db (s : startup) : result unit * startup :=
  match connect_startup s with
  | (Raise e, s1) => (Raise e, s1)
  | (Return None, s1) => (Return tt, s1)
  | (Return (Some _), s1) =>
      let body :=
        match create_table_if_not_exists s1 with
        | (Raise e, s2) => (Raise e, s2)
        | (Return _, s2) =>
            match commit_startup s2 with
            | (Raise e, s3) => (Raise e, s3)
            | (Return _, s3) =>
                match at_startup cursor_close s3 with
                | (Raise e, s4) => (Raise e, s4)
                | (Return _, s4) =>
                    match close_startup s4 with
                    | (Raise e, s5) => (Raise e, s5)
                    | (Return _, s5) =>
                        at_startup (print "Database initialized successfully") s5
                    end
                end
            end
        end in
      match body with
      | (Return u, s') => (Return u, s')
      | (Raise e, s') =>
          at_startup (print ("Error initializing database: " ++ exn_msg e)) s'
      end
  end.

(** * Properties *)

(** ** Dicts and validation *)

Lemma lookup_remove_same (k : string) (d : list (string * pyval)) :
  lookup k (remove k d) = None.
Proof.
  induction d as [|[k' v] d IH]; simpl; [reflexivity|].
  destruct (k =? k')%string eqn:E; [exact IH|].
  simpl. rewrite E. exact IH.
Qed.

Lemma lookup_remove_other (k k' : string) (d : list (string * pyval)) :
  k <> k' -> lookup k (remove k' d) = lookup k d.
Proof.
  intros Hne. induction d as [|[k0 v] d IH]; simpl; [reflexivity|].
  destruct (k' =? k0)%string eqn:E.
  - apply String.eqb_eq in E. subst k0.
    destruct (k =? k')%string eqn:E'; [apply String.eqb_eq in E'; contradiction|].
    exact IH.
  - simpl. destruct (k =? k0)%string; [reflexivity | exact IH].
Qed.

(** Deleting a key whose value is falsy changes the truth value of no
    field read with default [None]. *)
Lemma truthy_item_remove (d : list (string * pyval)) (f k : string) :
  truthy (item d f PNone) = false ->
  truthy (item (remove f d) k PNone) = truthy (item d k PNone).
Proof.
  intros Hf. unfold item in *.
  destruct (String.eqb_spec k f) as [->|Hne].
  - rewrite lookup_remove_same. simpl. symmetry. exact Hf.
  - rewrite (lookup_remove_other k f d Hne). reflexivity.
Qed.

(** The loop returns at the first field that is not truthy. *)
Lemma validate_find (d : list (string * pyval)) (fields : list string) :
  validate (PDict d) fields =
  Return (match find (fun k => negb (truthy (item d k PNone))) fields with
          | Some g => Some (error_response (g ++ " is required") 400)
          | None => None
          end).
Proof.
  induction fields as [|k fields IH]; simpl; [reflexivity|].
  destruct (truthy (item d k PNone)); simpl; [exact IH | reflexivity].
Qed.

Lemma find_falsy_ext (d d' : list (string * pyval)) (fields : list string) :
  (forall k, truthy (item d' k PNone) = truthy (item d k PNone)) ->
  find (fun k => negb (truthy (item d' k PNone))) fields
  = find (fun k => negb (truthy (item d k PNone))) fields.
Proof.
  intros H. induction fields as [|k fields IH]; simpl; [reflexivity|].
  rewrite H, IH. reflexivity.
Qed.

Lemma find_falsy_some (d : list (string * pyval)) (fields : list string) (f : string) :
  In f fields -> truthy (item d f PNone) = false ->
  exists g, find (fun k => negb (truthy (item d k PNone))) fields = Some g.
Proof.
  intros Hin Hf. induction fields as [|k fields IH]; simpl; [contradiction|].
  destruct (truthy (item d k PNone)) eqn:E; simpl; [|eauto].
  destruct Hin as [->|Hin]; [congruence | auto].
Qed.

Lemma all_required_find (d : list (string * pyval)) :
  all_required d = true ->
  find (fun k => negb (truthy (item d k PNone))) required_fields = None.
Proof.
  unfold all_required. generalize required_fields as fields.
  induction fields as [|k fields IH]; simpl; [reflexivity|].
  intros H. apply andb_prop in H. destruct H as [H1 H2].
  rewrite H1. simpl. auto.
Qed.

Lemma find_all_required (d : list (string * pyval)) :
  find (fun k => negb (truthy (item d k PNone))) required_fields = None ->
  all_required d = true.
Proof.
  unfold all_required. generalize required_fields as fields.
  induction fields as [|k fields IH]; simpl; [reflexivity|].
  destruct (truthy (item d k PNone)); simpl; [auto | discriminate].
Qed.

(** A dict body that fails validation is answered from the loop alone. *)
Lemma add_student_invalid (P : platform) (d : list (string * pyval)) (g : string)
      (w : world) :
  find (fun k => negb (truthy (item d k PNone))) required_fields = Some g ->
  add_student P (Return (PDict d)) w
  = (Return (error_response (g ++ " is required") 400), w).
Proof.
  intros Hg. unfold add_student, bind, lift.
  rewrite validate_find, Hg. reflexivity.
Qed.

(** ** The connection provider *)

Lemma connect_local_args (w : world) :
  connect_local w =
  psycopg2_connect
    (Keywords (match env_lookup "DB_HOST" (environ w) with Some v => v | None => "localhost" end)
              (match env_lookup "DB_NAME" (environ w) with Some v => v | None => "study" end)
              (match env_lookup "DB_USER" (environ w) with Some v => v | None => "postgres" end)
              (match env_lookup "DB_PASSWORD" (environ w) with Some v => v | None => "@jk3" end)
              (match env_lookup "DB_PORT" (environ w) with Some v => v | None => "5432" end)) w.
Proof. reflexivity. Qed.

(** The provider in closed form: one call of [psycopg2.connect], whose
    error, if any, is printed and turned into [None]. *)
Lemma get_db_connection_eq (w : world) :
  get_db_connection w =
  let a := provider_args (environ w) in
  match server w a with
  | None =>
      (Return (Some Connection),
       set_session (Some (table w)) (set_broken false (add_log (Connect a) w)))
  | Some e =>
      (Return None,
       add_log (Stdout ("Database connection error: " ++ exn_msg e))
         (add_log (Connect a) w))
  end.
Proof.
  unfold get_db_connection, try_except, bind, provider_args.
  destruct (DATABASE_URL (environ w)) as [| | |url| |];
    try (rewrite connect_local_args; unfold psycopg2_connect; simpl;
         match goal with |- context [server w ?a] => destruct (server w a) end;
         reflexivity).
  destruct (truthy (PStr url)).
  - unfold psycopg2_connect; simpl.
    match goal with |- context [server w ?a] => destruct (server w a) end; reflexivity.
  - rewrite connect_local_args; unfold psycopg2_connect; simpl.
    match goal with |- context [server w ?a] => destruct (server w a) end; reflexivity.
Qed.

(** ** Requests answered without the database *)

(** C5: for every state of the world, a search whose [query] parameter is
    absent or empty is answered 200 with an empty array, and the world is
    left as it was: nothing is logged, so no connection was opened and no
    statement was sent. *)
Theorem search_students_blank_query (P : platform) (w : world) :
  search_students P None w = (Return (Response (PList []) 200), w)
  /\ search_students P (Some "") w = (Return (Response (PList []) 200), w).
Proof. split; reflexivity. Qed.

(** C6: a create request whose dict body lacks one of [student_id],
    [name], [email] is answered 400 with the message [g is required],
    where [g] is the first required field that is absent or falsy ([g] is
    the absent field itself when the other required fields are truthy);
    the world is left as it was, so nothing was asked of the database. *)
Theorem add_student_missing_field (P : platform) (w : world)
        (d : list (string * pyval)) (f : string) :
  In f required_fields ->
  lookup f d = None ->
  exists g,
    find (fun k => negb (truthy (item d k PNone))) required_fields = Some g
    /\ add_student P (Return (PDict d)) w
       = (Return (error_response (g ++ " is required") 400), w)
    /\ ((forall k, In k required_fields -> k <> f -> truthy (item d k PNone) = true)
        -> g = f).
Proof.
  intros Hin Hmiss.
  assert (Hf : truthy (item d f PNone) = false)
    by (unfold item; rewrite Hmiss; reflexivity).
  destruct (find_falsy_some d required_fields f Hin Hf) as [g Hg].
  exists g. split; [exact Hg|]. split; [apply add_student_invalid; exact Hg|].
  intros Hothers.
  destruct (find_some _ _ Hg) as [Hgin Hgf].
  destruct (String.eqb_spec g f) as [E|Hne]; [exact E|].
  rewrite (Hothers g Hgin Hne) in Hgf. discriminate.
Qed.

Lemma add_student_missing_field_witness :
  exists g,
    find (fun k => negb (truthy (item [("student_id", PStr "S9"); ("email", PStr "z@x.com")] k PNone)))
      required_fields = Some g
    /\ add_student sample_platform
         (Return (PDict [("student_id", PStr "S9"); ("email", PStr "z@x.com")])) sample_world
       = (Return (error_response (g ++ " is required") 400), sample_world)
    /\ ((forall k, In k required_fields -> k <> "name" ->
                   truthy (item [("student_id", PStr "S9"); ("email", PStr "z@x.com")] k PNone) = true)
        -> g = "name").
Proof.
  apply (add_student_missing_field sample_platform sample_world
           [("student_id", PStr "S9"); ("email", PStr "z@x.com")] "name").
  - simpl. auto.
  - reflexivity.
Defined.

(** C9: on create, a required field that is present with the value [""],
    [None], [0] or [False] is treated as an absent one: the handler does
    on the body what it does on the body with that key deleted, namely
    answer 400 with [g is required] and leave the world as it was. *)
Theorem add_student_falsy_as_absent (P : platform) (w : world)
        (d : list (string * pyval)) (f : string) (v : pyval) :
  In f required_fields ->
  lookup f d = Some v ->
  In v [PStr ""; PNone; PInt 0; PBool false] ->
  add_student P (Return (PDict d)) w
  = add_student P (Return (PDict (remove f d))) w
  /\ exists g,
       add_student P (Return (PDict d)) w
       = (Return (error_response (g ++ " is required") 400), w).
Proof.
  intros Hin Hv Hfalsy.
  assert (Hf : truthy (item d f PNone) = false).
  { unfold item. rewrite Hv. simpl in Hfalsy.
    destruct Hfalsy as [<-|[<-|[<-|[<-|[]]]]]; reflexivity. }
  destruct (find_falsy_some d required_fields f Hin Hf) as [g Hg].
  assert (Hg' : find (fun k => negb (truthy (item (remove f d) k PNone))) required_fields
                = Some g).
  { rewrite (find_falsy_ext d (remove f d)); [exact Hg|].
    intros k. apply truthy_item_remove. exact Hf. }
  rewrite (add_student_invalid P d g w Hg), (add_student_invalid P (remove f d) g w Hg').
  split; [reflexivity | exists g; reflexivity].
Qed.

Lemma add_student_falsy_as_absent_witness :
  add_student sample_platform
    (Return (PDict [("student_id", PStr "S9"); ("name", PStr ""); ("email", PStr "z@x.com")]))
    sample_world
  = add_student sample_platform
      (Return (PDict (remove "name"
                        [("student_id", PStr "S9"); ("name", PStr ""); ("email", PStr "z@x.com")])))
      sample_world
  /\ exists g,
       add_student sample_platform
         (Return (PDict [("student_id", PStr "S9"); ("name", PStr ""); ("email", PStr "z@x.com")]))
         sample_world
       = (Return (error_response (g ++ " is required") 400), sample_world).
Proof.
  apply (add_student_falsy_as_absent sample_platform sample_world
           [("student_id", PStr "S9"); ("name", PStr ""); ("email", PStr "z@x.com")]
           "name" (PStr "")).
  - simpl. auto.
  - reflexivity.
  - simpl. auto.
Defined.

(** C8: a create request whose body is the JSON array [[]] is not
    answered by the handler: the [AttributeError] of [data.get] in the
    validation loop, which is outside the [try], escapes [add_student]. *)
Theorem add_student_array_body_escapes (P : platform) (w : world) :
  add_student P (Return (PList [])) w
  = (Raise (Exn AttributeError "'list' object has no attribute 'get'"), w).
Proof. reflexivity. Qed.

(** More generally, every body that is not a dict escapes the same way,
    and so does the error of [request.json] itself. *)
Lemma add_student_not_a_dict (P : platform) (w : world) (data : pyval) :
  (forall d, data <> PDict d) ->
  add_student P (Return data) w = (Raise (no_attribute data "get"), w).
Proof.
  intros H. destruct data; try reflexivity. exfalso. eapply H. reflexivity.
Qed.

Lemma request_json_error_escapes (P : platform) (w : world) (e : exn) (id : Z) :
  add_student P (Raise e) w = (Raise e, w)
  /\ update_student P id (Raise e) w = (Raise e, w).
Proof. split; reflexivity. Qed.

(** ** The handlers once the connection is asked for *)

Lemma getitem_required (d : list (string * pyval)) (k : string) :
  truthy (item d k PNone) = true ->
  getitem (PDict d) k = Return (item d k PNone).
Proof.
  unfold item, getitem. destruct (lookup k d); [reflexivity | discriminate].
Qed.

Lemma all_required_fields (d : list (string * pyval)) :
  all_required d = true ->
  truthy (item d "student_id" PNone) = true
  /\ truthy (item d "name" PNone) = true
  /\ truthy (item d "email" PNone) = true.
Proof.
  unfold all_required. simpl. intros H.
  repeat (apply andb_prop in H; destruct H as [? H]). auto.
Qed.

(** [add_student] on a dict that passes validation: the connection is
    asked for and the INSERT is sent with the parameters [bound_params]. *)
Lemma add_student_valid (P : platform) (d : list (string * pyval)) (w : world) :
  all_required d = true ->
  add_student P (Return (PDict d)) w =
  match get_db_connection w with
  | (Return None, w1) => (Return (error_response "Database connection failed" 500), w1)
  | (Return (Some _), w1) =>
      try_except
        (cur <- execute P (InsertRow (bound_params d)) ;;
         student_id <- lift (fetchone_0 cur) ;;
         commit ;;
         cursor_close ;;
         close ;;
         ret (Response (PDict [("message", PStr "Student added successfully");
                               ("id", PInt student_id)]) 201))
        (fun e =>
           if is_integrity e then
             rollback ;;
             ret (error_response "Student ID or Email already exists" 400)
           else
             rollback ;;
             print ("Error adding student: " ++ exn_msg e) ;;
             ret (error_response (exn_msg e) 500)) w1
  | (Raise e, w1) => (Raise e, w1)
  end.
Proof.
  intros Hreq. destruct (all_required_fields d Hreq) as (H1 & H2 & H3).
  unfold add_student. unfold bind at 1. unfold lift at 1.
  unfold bind at 1. unfold lift at 1.
  rewrite validate_find, (all_required_find d Hreq).
  unfold bind at 1.
  destruct (get_db_connection w) as [[[c|]|e] w1]; try reflexivity.
  unfold try_except, bind, lift, get.
  rewrite (getitem_required d _ H1), (getitem_required d _ H2), (getitem_required d _ H3).
  reflexivity.
Qed.

(** [update_student] on a dict body. *)
Lemma update_student_dict (P : platform) (id : Z) (d : list (string * pyval)) (w : world) :
  update_student P id (Return (PDict d)) w =
  match get_db_connection w with
  | (Return None, w1) => (Return (error_response "Database connection failed" 500), w1)
  | (Return (Some _), w1) =>
      try_except
        (cur <- execute P (UpdateById (bound_params d) id) ;;
         if (rowcount cur =? 0)%nat then
           rollback ;;
           ret (error_response "Student not found" 404)
         else
           commit ;;
           cursor_close ;;
           close ;;
           ret (Response (PDict [("message", PStr "Student updated successfully")]) 200))
        (fun e =>
           if is_integrity e then
             rollback ;;
             ret (error_response "Student ID or Email already exists" 400)
           else
             rollback ;;
             print ("Error updating student: " ++ exn_msg e) ;;
             ret (error_response (exn_msg e) 500)) w1
  | (Raise e, w1) => (Raise e, w1)
  end.
Proof.
  unfold update_student. unfold bind at 1. unfold lift at 1. unfold bind at 1.
  destruct (get_db_connection w) as [[[c|]|e] w1]; reflexivity.
Qed.

Lemma rollback_open (w : world) (rows : list student) :
  session w = Some rows ->
  broken w = false ->
  rollback w = (Return tt, set_session (Some (table w)) (add_log Rollback w)).
Proof. intros H Hb. unfold rollback. simpl. rewrite H, Hb. reflexivity. Qed.

(** A connection that has lost its link refuses the rollback. *)
Lemma rollback_broken (w : world) (rows : list student) :
  session w = Some rows ->
  broken w = true ->
  rollback w = (Raise closed, add_log Rollback w).
Proof. intros H Hb. unfold rollback. simpl. rewrite H, Hb. reflexivity. Qed.

(** Closes a case of [execute]: both components of the outcome are known. *)
Ltac outcome := intros [= <- <-]; simpl; eauto.

(** A statement leaves the transaction open, whether it returns or raises. *)
Lemma execute_keeps_open (P : platform) (q : statement) (w w' : world)
      (r : result cursor) (rows : list student) :
  session w = Some rows ->
  execute P q w = (r, w') ->
  exists rows', session w' = Some rows'.
Proof.
  intros Hs. unfold execute. simpl. rewrite Hs.
  destruct (adapt_statement q); [outcome|].
  destruct (fault w AtExecute); [outcome|].
  destruct q as [|p|p i|i|p1 p2].
  - outcome.
  - destruct (Sql.convert P p); [|outcome].
    destruct (Sql.int4_max <=? seq w); [outcome|].
    destruct (Sql.insert _ _ _ _); outcome.
  - destruct (Sql.convert P p); [|outcome].
    destruct (Sql.update _ _ _) as [[rows' n]|]; outcome.
  - simpl. outcome.
  - outcome.
Qed.



(** ** Connection failures *)

(** C7: [get_db_connection] never raises: in every world (every
    environment, every outcome of [psycopg2.connect]) it returns, either a
    connection with a transaction open on the committed rows, or [None]
    after printing the error; the table is not touched. Every handler
    that asks for the connection answers 500 [Database connection failed]
    when it gets [None], doing nothing more. *)
Theorem connection_failure_is_none_and_checked (P : platform) (w : world) (c : api_call) :
  exists r w1,
    get_db_connection w = (Return r, w1)
    /\ table w1 = table w
    /\ match r with
       | Some _ =>
           server w (provider_args (environ w)) = None
           /\ session w1 = Some (table w)
       | None =>
           exists e,
             server w (provider_args (environ w)) = Some e
             /\ session w1 = session w
             /\ log w1 = log w ++ [Connect (provider_args (environ w));
                                   Stdout ("Database connection error: " ++ exn_msg e)]
       end
    /\ (asks_for_connection c = true -> r = None ->
        handle P c w = (Return (error_response "Database connection failed" 500), w1)).
Proof.
  pose proof (get_db_connection_eq w) as Heq. simpl in Heq.
  destruct (server w (provider_args (environ w))) as [e|] eqn:Hsrv.
  - eexists None, _. split; [exact Heq|]. split; [reflexivity|].
    split.
    + exists e. split; [reflexivity|]. split; [reflexivity|].
      simpl. rewrite <- app_assoc. reflexivity.
    + intros Hasks _. destruct c as [|rj|id rj|id|arg]; simpl in Hasks; unfold handle.
      * unfold get_students, bind. rewrite Heq. reflexivity.
      * destruct rj as [data|]; [|discriminate].
        destruct data; try discriminate.
        rewrite (add_student_valid P _ w Hasks), Heq. reflexivity.
      * destruct rj as [data|]; [|discriminate].
        unfold update_student. unfold bind at 1. unfold lift at 1.
        unfold bind at 1. rewrite Heq. reflexivity.
      * unfold delete_student, bind. rewrite Heq. reflexivity.
      * destruct arg as [q|]; [|discriminate].
        unfold search_students, truthy. rewrite Hasks. cbn [negb].
        unfold bind. rewrite Heq. reflexivity.
  - eexists (Some Connection), _. split; [exact Heq|]. split; [reflexivity|].
    split; [split; reflexivity|]. discriminate.
Qed.

Lemma connection_failure_is_none_and_checked_witness :
  handle sample_platform GetStudents offline_world
  = (Return (error_response "Database connection failed" 500),
     snd (get_db_connection offline_world)).
Proof.
  destruct (connection_failure_is_none_and_checked sample_platform offline_world GetStudents)
    as (r & w1 & Hconn & _ & Hr & Hchecked).
  rewrite Hconn. simpl. apply Hchecked; [reflexivity|].
  destruct r as [conn|]; [|reflexivity].
  destruct Hr as [Hsrv _]. vm_compute in Hsrv. discriminate.
Defined.

(** A handler that does not ask for the connection leaves the world as
    it was. *)
Lemma no_connection_asked (P : platform) (w : world) (c : api_call) :
  asks_for_connection c = false -> snd (handle P c w) = w.
Proof.
  destruct c as [|rj|id rj|id|arg]; simpl; try discriminate.
  - destruct rj as [data|e]; [|reflexivity].
    destruct data; try reflexivity.
    intros H. unfold add_student, bind, lift. rewrite validate_find.
    destruct (find _ required_fields) eqn:E; [reflexivity|].
    apply find_all_required in E. congruence.
  - destruct rj; [discriminate | reflexivity].
  - destruct arg as [q|]; [|reflexivity].
    intros H. unfold search_students. simpl. destruct (q =? "")%string; [reflexivity|discriminate].
Qed.

(** ** Errors of the database *)

(** The generic clause of the mutating handlers, run in a world whose
    transaction is open on a connection that has its link. *)
Lemma generic_clause (prefix : string) (e : exn) (w : world) (rows : list student) :
  session w = Some rows ->
  broken w = false ->
  (rollback ;;
   print (prefix ++ exn_msg e) ;;
   ret (error_response (exn_msg e) 500)) w
  = (Return (error_response (exn_msg e) 500),
     add_log (Stdout (prefix ++ exn_msg e))
       (set_session (Some (table w)) (add_log Rollback w))).
Proof.
  intros Hs Hb. unfold bind. rewrite (rollback_open w rows Hs Hb). reflexivity.
Qed.

(** The conflict clause of [add_student] and [update_student]. *)
Lemma conflict_clause_run (w : world) (rows : list student) :
  session w = Some rows ->
  broken w = false ->
  (rollback ;;
   ret (error_response "Student ID or Email already exists" 400)) w
  = (Return (error_response "Student ID or Email already exists" 400),
     set_session (Some (table w)) (add_log Rollback w)).
Proof.
  intros Hs Hb. unfold bind. rewrite (rollback_open w rows Hs Hb). reflexivity.
Qed.

(** Both clauses on a connection that has lost its link: the error of
    [rollback] leaves the handler. *)
Lemma clauses_broken (prefix : string) (e : exn) (w : world) (rows : list student) :
  session w = Some rows ->
  broken w = true ->
  (if is_integrity e then
     rollback ;;
     ret (error_response "Student ID or Email already exists" 400)
   else
     rollback ;;
     print (prefix ++ exn_msg e) ;;
     ret (error_response (exn_msg e) 500)) w
  = (Raise closed, add_log Rollback w).
Proof.
  intros Hs Hb.
  destruct (is_integrity e); unfold bind; rewrite (rollback_broken w rows Hs Hb);
    reflexivity.
Qed.





(** C10, as the claim has it, fails when the server goes away: the
    DELETE raises, the handler has no clause of its own for the error, and
    yet no 500 with the message is answered; the [InterfaceError] of
    [conn.rollback()] leaves [delete_student]. *)
Lemma delete_student_lost_link_escapes :
  exists e wf,
    statement_of (DeleteStudent 1) = Some (DeleteById 1)
    /\ get_db_connection failing_world = (Return (Some Connection), connected failing_world)
    /\ persistence_error sample_platform (DeleteStudent 1) (DeleteById 1)
         (connected failing_world) e wf
    /\ conflict_clause (DeleteStudent 1) e = false
    /\ fst (handle sample_platform (DeleteStudent 1) failing_world)
       = Raise (Exn InterfaceError "connection already closed").
Proof.
  eexists _, _. split; [reflexivity|]. split; [reflexivity|].
  split; [left; reflexivity|]. split; reflexivity.
Qed.

(** ** Statements and the committed table *)

(** Only [commit] writes the committed table. *)
Lemma execute_table (P : platform) (q : statement) (w w' : world) (r : result cursor) :
  execute P q w = (r, w') -> table w' = table w /\ log w' = log w ++ [Execute q].
Proof.
  unfold execute. simpl.
  destruct (session w) as [rows|]; [|outcome].
  destruct (adapt_statement q); [outcome|].
  destruct (fault w AtExecute); [outcome|].
  destruct q as [|p|p i|i|p1 p2].
  - outcome.
  - destruct (Sql.convert P p); [|outcome].
    destruct (Sql.int4_max <=? seq w); [outcome|].
    destruct (Sql.insert _ _ _ _); outcome.
  - destruct (Sql.convert P p); [|outcome].
    destruct (Sql.update _ _ _) as [[rows' n]|]; outcome.
  - simpl. outcome.
  - outcome.
Qed.


Lemma rollback_table (w : world) : table (snd (rollback w)) = table w.
Proof.
  unfold rollback. simpl. destruct (session w); [destruct (broken w)|]; reflexivity.
Qed.



Lemma convert_fields (P : platform) (p : Sql.params) (c : Sql.candidate) :
  Sql.convert P p = Return c ->
  Sql.to_varchar P 20 (Sql.p_student_id p) = Return (Sql.c_student_id c)
  /\ Sql.to_varchar P 100 (Sql.p_name p) = Return (Sql.c_name c)
  /\ Sql.to_varchar P 100 (Sql.p_email p) = Return (Sql.c_email c)
  /\ Sql.to_varchar P 20 (Sql.p_phone p) = Return (Sql.c_phone c)
  /\ Sql.to_varchar P 100 (Sql.p_course p) = Return (Sql.c_course c)
  /\ Sql.to_integer P (Sql.p_year p) = Return (Sql.c_year c)
  /\ Sql.to_text P (Sql.p_address p) = Return (Sql.c_address c).
Proof.
  unfold Sql.convert, Sql.rbind.
  destruct (Sql.to_varchar P 20 (Sql.p_student_id p)); [|discriminate].
  destruct (Sql.to_varchar P 100 (Sql.p_name p)); [|discriminate].
  destruct (Sql.to_varchar P 100 (Sql.p_email p)); [|discriminate].
  destruct (Sql.to_varchar P 20 (Sql.p_phone p)); [|discriminate].
  destruct (Sql.to_varchar P 100 (Sql.p_course p)); [|discriminate].
  destruct (Sql.to_integer P (Sql.p_year p)); [|discriminate].
  destruct (Sql.to_text P (Sql.p_address p)); [|discriminate].
  intros [= <-]. simpl. repeat split; reflexivity.
Qed.

(** A value its column accepts is one psycopg2 adapts. *)
Lemma to_varchar_adapt (P : platform) (n : nat) (v : pyval) (x : option string) :
  Sql.to_varchar P n v = Return x -> Sql.adapt v = None.
Proof. unfold Sql.to_varchar. destruct (Sql.adapt v); [discriminate | reflexivity]. Qed.

Lemma to_integer_adapt (P : platform) (v : pyval) (x : option Z) :
  Sql.to_integer P v = Return x -> Sql.adapt v = None.
Proof. unfold Sql.to_integer. destruct (Sql.adapt v); [discriminate | reflexivity]. Qed.

Lemma to_text_adapt (P : platform) (v : pyval) (x : option string) :
  Sql.to_text P v = Return x -> Sql.adapt v = None.
Proof. unfold Sql.to_text. destruct (Sql.adapt v); [discriminate | reflexivity]. Qed.

Lemma convert_adapt (P : platform) (p : Sql.params) (c : Sql.candidate) :
  Sql.convert P p = Return c -> Sql.adapt_params p = None.
Proof.
  intros Hc. destruct (convert_fields P p c Hc) as (C1 & C2 & C3 & C4 & C5 & C6 & C7).
  unfold Sql.adapt_params.
  rewrite (to_varchar_adapt _ _ _ _ C1), (to_varchar_adapt _ _ _ _ C2),
    (to_varchar_adapt _ _ _ _ C3), (to_varchar_adapt _ _ _ _ C4),
    (to_varchar_adapt _ _ _ _ C5), (to_integer_adapt _ _ _ C6),
    (to_text_adapt _ _ _ C7).
  reflexivity.
Qed.



(** ** Create with a duplicate *)



(** C1, as the claim has it, fails when the duplicate comes with a value
    its column refuses: on the table holding [ana] ([student_id] S1), the
    create of another S1 with [year] 2147483648 is answered 500 with the
    text of the server's error, not 400: the INSERT fails on the year
    before it gets to the uniqueness of [student_id]. *)
Lemma add_student_duplicate_out_of_range :
  duplicates sample_platform
    [("student_id", PStr "S1"); ("name", PStr "Cy"); ("email", PStr "c@x.com");
     ("year", PInt 2147483648)] (table sample_world)
  /\ all_required [("student_id", PStr "S1"); ("name", PStr "Cy");
                   ("email", PStr "c@x.com"); ("year", PInt 2147483648)] = true
  /\ fst (add_student sample_platform
            (Return (PDict [("student_id", PStr "S1"); ("name", PStr "Cy");
                            ("email", PStr "c@x.com"); ("year", PInt 2147483648)]))
            sample_world)
     = Return (Response (PDict [("error", PStr ("integer out of range" ++ newline))]) 500).
Proof.
  split; [|split; reflexivity].
  exists ana. split; [simpl; auto | left; reflexivity].
Qed.

(** ** Update of an id that is not in the table *)

Lemma filter_none (i : Z) (rows : list student) :
  (forall r, In r rows -> Student.id r <> i) ->
  filter (fun r => Student.id r =? i) rows = [].
Proof.
  intros H. induction rows as [|r rows IH]; simpl; [reflexivity|].
  destruct (Z.eqb_spec (Student.id r) i) as [E|_].
  - exfalso. apply (H r); [left; reflexivity | exact E].
  - apply IH. intros r' Hin. apply H. right. exact Hin.
Qed.



(** [update_student] on a body that is not a dict: [data.get] raises
    inside the [try], so the error is answered by the generic clause. *)
Lemma update_student_not_a_dict (P : platform) (id : Z) (data : pyval) (w : world) :
  (forall d, data <> PDict d) ->
  update_student P id (Return data) w =
  match get_db_connection w with
  | (Return None, w1) => (Return (error_response "Database connection failed" 500), w1)
  | (Return (Some _), w1) =>
      (rollback ;;
       print ("Error updating student: " ++ exn_msg (no_attribute data "get")) ;;
       ret (error_response (exn_msg (no_attribute data "get")) 500)) w1
  | (Raise e, w1) => (Raise e, w1)
  end.
Proof.
  intros Hnd. unfold update_student. unfold bind at 1. unfold lift at 1. unfold bind at 1.
  destruct (get_db_connection w) as [[[c|]|e] w1]; try reflexivity.
  destruct data; try reflexivity. exfalso. eapply Hnd. reflexivity.
Qed.

(** So a body that is the JSON array [[]] is answered by
    [update_student], by 500, where [add_student] lets the error escape. *)
Lemma update_student_array_body_answered (P : platform) (w : world) (id : Z) :
  exists r, fst (update_student P id (Return (PList [])) w) = Return r /\ status r = 500.
Proof.
  rewrite (update_student_not_a_dict P id (PList []) w) by discriminate.
  rewrite get_db_connection_eq. cbv zeta.
  destruct (server w (provider_args (environ w))).
  - eexists. split; reflexivity.
  - rewrite (generic_clause _ _ _ (table w)) by reflexivity.
    eexists. split; reflexivity.
Qed.



(** C4, as the claim has it, fails when a value is one its column
    refuses: on the table holding ids 1 and 2, the update of id 9 with a
    [student_id] of 21 characters is answered 500 with the text of the
    server's error, not 404: the value is refused before any row is
    looked for. *)
Lemma update_student_unknown_id_too_long :
  (forall r, In r (table sample_world) -> Student.id r <> 9)
  /\ fst (update_student sample_platform 9
            (Return (PDict [("student_id", PStr "S9-456789012345678901");
                            ("name", PStr "Zed"); ("email", PStr "z@x.com")]))
            sample_world)
     = Return (Response
                 (PDict [("error",
                          PStr ("value too long for type character varying(20)" ++ newline))])
                 500).
Proof.
  split; [|reflexivity].
  simpl. intros r [<-|[<-|[]]]; discriminate.
Qed.

(** ** Update of an existing row *)

(** With [id] a key, exactly one row has the id of a row of the table. *)
Lemma filter_id_one (rows : list student) (r0 : student) :
  NoDup (map Student.id rows) ->
  In r0 rows ->
  List.length (filter (fun r => Student.id r =? Student.id r0) rows) = 1%nat.
Proof.
  induction rows as [|r rows IH]; simpl; [contradiction|].
  intros Hnd Hin. inversion Hnd as [|x l Hnotin Hnd' [Hx Hl]]; subst.
  destruct Hin as [->|Hin].
  - rewrite Z.eqb_refl. simpl. f_equal.
    rewrite filter_none; [reflexivity|].
    intros r' Hr' E. apply Hnotin. rewrite <- E. apply in_map. exact Hr'.
  - destruct (Z.eqb_spec (Student.id r) (Student.id r0)) as [E|_]; [|auto].
    exfalso. apply Hnotin. rewrite E. apply in_map. exact Hin.
Qed.


(** The statements that carry parameters, once the parameters are ones
    their columns accept and the server does not fail. *)
Lemma execute_update (P : platform) (p : Sql.params) (i : Z) (w : world)
      (rows : list student) (c : Sql.candidate) :
  session w = Some rows ->
  fault w AtExecute = None ->
  Sql.convert P p = Return c ->
  execute P (UpdateById p i) w
  = match Sql.update i c rows with
    | Raise e => (Raise e, add_log (Execute (UpdateById p i)) w)
    | Return (rows', n) =>
        (Return (Cursor n [] []),
         set_session (Some rows') (add_log (Execute (UpdateById p i)) w))
    end.
Proof.
  intros Hs Hf Hc. unfold execute. simpl.
  rewrite Hs, (convert_adapt P p c Hc), Hf, Hc.
  destruct (Sql.update i c rows) as [[rows' n]|e]; reflexivity.
Qed.

Lemma execute_insert (P : platform) (p : Sql.params) (w : world)
      (rows : list student) (c : Sql.candidate) :
  session w = Some rows ->
  fault w AtExecute = None ->
  Sql.convert P p = Return c ->
  seq w < Sql.int4_max ->
  execute P (InsertRow p) w
  = match Sql.insert (seq w + 1) (clock w) c rows with
    | Raise e => (Raise e, set_seq (seq w + 1) (add_log (Execute (InsertRow p)) w))
    | Return rows' =>
        (Return (Cursor 1 [] [seq w + 1]),
         set_session (Some rows')
           (set_seq (seq w + 1) (add_log (Execute (InsertRow p)) w)))
    end.
Proof.
  intros Hs Hf Hc Hlt. unfold execute. simpl.
  rewrite Hs, (convert_adapt P p c Hc), Hf, Hc.
  destruct (Z.leb_spec Sql.int4_max (seq w)) as [Hge|_]; [lia|].
  destruct (Sql.insert _ _ _ _); reflexivity.
Qed.


Lemma to_varchar_string (P : platform) (n : nat) (s : string) :
  Sql.has_nul s = false ->
  (Sql.chars s <= n)%nat ->
  Sql.to_varchar P n (PStr s) = Return (Some s).
Proof.
  intros Hn H. unfold Sql.to_varchar, Sql.adapt, Sql.varchar, Sql.rbind.
  apply Nat.leb_le in H. rewrite Hn, H. reflexivity.
Qed.




(** A [student_id] of 21 characters whose last is a space is accepted and
    stored without it. *)
Lemma update_student_cuts_spaces :
  table (snd (update_student sample_platform 1
                (Return (PDict [("student_id", PStr "S1-45678901234567890 ");
                                ("name", PStr "Ana"); ("email", PStr "a@x.com")]))
                sample_world))
  = [Student.Row 1 "S1-45678901234567890" "Ana" "a@x.com" (Some "") (Some "") None
       (Some "") (Some (Datetime 2024 1 15 9 30 0));
     bob].
Proof. reflexivity. Qed.

(** An update that leaves out [student_id], [name] or [email] binds null
    to a NOT NULL column: on an existing id the statement is refused, the
    answer is the 400 of the conflict clause and the row keeps all its
    values. *)
Lemma update_student_absent_required (P : platform) (w : world) (r0 : student)
      (d : list (string * pyval)) (c : Sql.candidate) :
  In r0 (table w) ->
  server w (provider_args (environ w)) = None ->
  fault w AtExecute = None ->
  Sql.convert P (bound_params d) = Return c ->
  lookup "student_id" d = None \/ lookup "name" d = None \/ lookup "email" d = None ->
  update_student P (Student.id r0) (Return (PDict d)) w
  = (Return (error_response "Student ID or Email already exists" 400),
     set_session (Some (table w))
       (add_log Rollback
          (add_log (Execute (UpdateById (bound_params d) (Student.id r0)))
             (connected w)))).
Proof.
  intros Hin Hsrv Hfx Hconv Habs.
  destruct (convert_fields P _ c Hconv) as (C1 & C2 & C3 & _).
  simpl in C1, C2, C3. unfold item in C1, C2, C3.
  assert (Hnull : Sql.c_student_id c = None \/ Sql.c_name c = None \/ Sql.c_email c = None).
  { destruct Habs as [H|[H|H]]; [left | right; left | right; right].
    - rewrite H in C1. unfold Sql.to_varchar in C1. simpl in C1. congruence.
    - rewrite H in C2. unfold Sql.to_varchar in C2. simpl in C2. congruence.
    - rewrite H in C3. unfold Sql.to_varchar in C3. simpl in C3. congruence. }
  assert (Hupd : Sql.update (Student.id r0) c (table w) = Raise Sql.not_null_violation).
  { unfold Sql.update.
    destruct (filter (fun r => Student.id r =? Student.id r0) (table w)) as [|h hit] eqn:Hf.
    - exfalso. assert (Hr0 : In r0 (filter (fun r => Student.id r =? Student.id r0) (table w)))
        by (apply filter_In; split; [exact Hin | apply Z.eqb_refl]).
      rewrite Hf in Hr0. exact Hr0.
    - destruct (Sql.c_student_id c), (Sql.c_name c), (Sql.c_email c);
        try reflexivity.
      destruct Hnull as [H|[H|H]]; discriminate. }
  rewrite (update_student_dict P _ d w), get_db_connection_eq. cbv zeta. rewrite Hsrv.
  fold (connected w).
  unfold try_except. unfold bind at 1.
  rewrite (execute_update P _ _ (connected w) (table w) c eq_refl Hfx Hconv), Hupd.
  reflexivity.
Qed.


(** ** Search: ILIKE and substrings *)

Lemma like_percent (ci : bool) (p t : string) :
  Sql.like ci (String "%" p) t
  = Sql.like ci p t
    || match t with
       | EmptyString => false
       | String _ t' => Sql.like ci (String "%" p) t'
       end.
Proof. destruct t; reflexivity. Qed.

Lemma like_percent_only (ci : bool) (t : string) : Sql.like ci "%" t = true.
Proof.
  induction t as [|c t IH]; [reflexivity|].
  rewrite like_percent. rewrite IH. apply orb_true_r.
Qed.

Lemma like_plain_char (ci : bool) (c : ascii) (p t : string) :
  ((c =? "%")%char || (c =? "_")%char || (c =? "\")%char) = false ->
  Sql.like ci (String c p) t
  = match t with
    | EmptyString => false
    | String d t' => Sql.same_char ci c d && Sql.like ci p t'
    end.
Proof.
  intros H. apply orb_false_elim in H. destruct H as [H H3].
  apply orb_false_elim in H. destruct H as [H1 H2].
  simpl. rewrite H1, H2, H3. reflexivity.
Qed.

(** A plain query followed by [%] matches the texts it is a prefix of. *)
Lemma like_plain_prefix (q t : string) :
  plain q = true -> Sql.like true (q ++ "%") t = iprefix q t.
Proof.
  revert t. induction q as [|c q IH]; intros t Hp.
  - apply like_percent_only.
  - simpl in Hp. apply andb_prop in Hp. destruct Hp as [Hc Hq].
    apply negb_true_iff in Hc.
    change (String c q ++ "%")%string with (String c (q ++ "%")).
    rewrite (like_plain_char true c _ t Hc). simpl.
    destruct t as [|d t]; [reflexivity|].
    rewrite (IH t Hq). reflexivity.
Qed.

(** The pattern the handler builds from a plain query is a substring
    test that ignores case. *)
Lemma ilike_plain (q t : string) :
  plain q = true -> Sql.ilike t ("%" ++ q ++ "%") = icontains q t.
Proof.
  intros Hp. unfold Sql.ilike.
  change ("%" ++ q ++ "%")%string with (String "%" (q ++ "%")).
  induction t as [|c t IH].
  - rewrite like_percent, (like_plain_prefix q _ Hp). reflexivity.
  - rewrite like_percent, (like_plain_prefix q _ Hp), IH. reflexivity.
Qed.

Lemma lowercase_app (s t : string) :
  lowercase (s ++ t) = (lowercase s ++ lowercase t)%string.
Proof. induction s as [|c s IH]; simpl; [reflexivity | rewrite IH; reflexivity]. Qed.



(** ** Search: the order and the rows of the result *)

Lemma place_perm (r : student) (l : list student) :
  Permutation (Sql.place r l) (r :: l).
Proof.
  induction l as [|r' l IH]; simpl; [apply Permutation_refl|].
  destruct (Student.id r' <=? Student.id r); [apply Permutation_refl|].
  eapply Permutation_trans; [apply perm_skip; exact IH | apply perm_swap].
Qed.

Lemma order_by_id_desc_perm (l : list student) :
  Permutation (Sql.order_by_id_desc l) l.
Proof.
  induction l as [|r l IH]; simpl; [apply Permutation_refl|].
  eapply Permutation_trans; [apply place_perm | apply perm_skip; exact IH].
Qed.

Lemma place_descending (r : student) (l : list student) :
  descending l -> descending (Sql.place r l).
Proof.
  unfold descending. induction l as [|r' l IH]; intros Hs; simpl.
  - constructor; [constructor | constructor].
  - inversion Hs as [|x l' Hs' Hall]; subst.
    destruct (Z.leb_spec (Student.id r') (Student.id r)) as [Hle|Hlt].
    + constructor; [exact Hs|].
      constructor; [exact Hle|].
      eapply Forall_impl; [|exact Hall]. intros a Ha. simpl in Ha. lia.
    + constructor; [apply IH; exact Hs'|].
      eapply Permutation_Forall; [apply Permutation_sym, place_perm|].
      constructor; [lia | exact Hall].
Qed.

Lemma order_by_id_desc_descending (l : list student) :
  descending (Sql.order_by_id_desc l).
Proof.
  induction l as [|r l IH]; simpl; [constructor | apply place_descending; exact IH].
Qed.

(** The rows of [Sql.search]: those of the table that match, from the
    highest id down. *)
Lemma search_rows (p1 p2 : string) (rows : list student) (r : student) :
  In r (Sql.search p1 p2 rows)
  <-> In r rows
      /\ (Sql.ilike (Student.name r) p1 = true \/ Sql.ilike (Student.student_id r) p2 = true).
Proof.
  unfold Sql.search. split.
  - intros H. apply (Permutation_in _ (order_by_id_desc_perm _)) in H.
    apply filter_In in H. destruct H as [Hin Hm]. split; [exact Hin|].
    apply orb_prop. exact Hm.
  - intros [Hin Hm].
    apply (Permutation_in _ (Permutation_sym (order_by_id_desc_perm _))).
    apply filter_In. split; [exact Hin | apply orb_true_intro; exact Hm].
Qed.

Lemma has_nul_app (s t : string) :
  Sql.has_nul (s ++ t) = Sql.has_nul s || Sql.has_nul t.
Proof.
  induction s as [|c s IH]; simpl; [reflexivity|].
  rewrite IH. apply orb_assoc.
Qed.

(** The pattern of the handler holds a NUL exactly when the query does. *)
Lemma pattern_nul (q : string) : Sql.has_nul ("%" ++ q ++ "%") = Sql.has_nul q.
Proof.
  change ("%" ++ q ++ "%")%string with (String "%" (q ++ "%")).
  cbn [Sql.has_nul]. rewrite has_nul_app. simpl. apply orb_false_r.
Qed.

Lemma ascii_text_no_nul (s : string) : ascii_text s = true -> Sql.has_nul s = false.
Proof.
  induction s as [|c s IH]; simpl; [reflexivity|].
  intros H. apply andb_prop in H. destruct H as [Hc Hs].
  apply andb_prop in Hc. destruct Hc as [Hc _].
  rewrite (IH Hs), orb_false_r.
  apply Ascii.eqb_neq. intros ->. discriminate.
Qed.

(** The SELECT of [search_students], in closed form. *)
Lemma execute_select_like (P : platform) (p : string) (w : world) (rows : list student) :
  session w = Some rows ->
  execute P (SelectLike p p) w
  = if Sql.has_nul p then (Raise Sql.nul_refused, add_log (Execute (SelectLike p p)) w)
    else match fault w AtExecute with
         | Some f => (Raise (raised f), fail f (add_log (Execute (SelectLike p p)) w))
         | None =>
             (Return (Cursor (List.length (Sql.search p p rows)) (Sql.search p p rows) []),
              add_log (Execute (SelectLike p p)) w)
         end.
Proof.
  intros Hs. unfold execute, adapt_statement, Sql.adapt.
  cbn [session add_log fault]. rewrite Hs.
  destruct (Sql.has_nul p); [reflexivity|].
  destruct (fault w AtExecute); reflexivity.
Qed.

Lemma get_db_connection_connected (w : world) :
  server w (provider_args (environ w)) = None ->
  get_db_connection w = (Return (Some Connection), connected w).
Proof. intros H. rewrite get_db_connection_eq. cbv zeta. rewrite H. reflexivity. Qed.

Lemma get_db_connection_unreachable (w : world) (e : exn) :
  server w (provider_args (environ w)) = Some e ->
  get_db_connection w = (Return None, unreachable w e).
Proof. intros H. rewrite get_db_connection_eq. cbv zeta. rewrite H. reflexivity. Qed.

(** The answer of [search_students] to a non-empty query, in closed form. *)
Lemma search_students_answer (P : platform) (w : world) (q : string) :
  q <> "" ->
  fst (search_students P (Some q) w)
  = match server w (provider_args (environ w)) with
    | Some _ => Return (error_response "Database connection failed" 500)
    | None =>
        if Sql.has_nul q then Return (error_response (exn_msg Sql.nul_refused) 500)
        else
          match fault w AtExecute with
          | Some f => Return (error_response (exn_msg (raised f)) 500)
          | None =>
              Return (Response
                        (PList (map (student_dict P)
                                  (Sql.search ("%" ++ q ++ "%") ("%" ++ q ++ "%") (table w))))
                        200)
          end
    end.
Proof.
  intros Hne. apply String.eqb_neq in Hne.
  unfold search_students, truthy. rewrite Hne. cbn [negb].
  unfold bind at 1.
  destruct (server w (provider_args (environ w))) as [e0|] eqn:Hsrv.
  - rewrite (get_db_connection_unreachable w e0 Hsrv). reflexivity.
  - rewrite (get_db_connection_connected w Hsrv).
    unfold try_except. unfold bind at 1.
    rewrite (execute_select_like P _ (connected w) (table w) eq_refl), pattern_nul.
    destruct (Sql.has_nul q); [reflexivity|].
    change (fault (connected w)) with (fault w).
    destruct (fault w AtExecute); reflexivity.
Qed.

(** Reading never writes: the table after a search is the table before. *)
Lemma search_students_table (P : platform) (w : world) (arg : option string) :
  table (snd (search_students P arg w)) = table w.
Proof.
  unfold search_students.
  destruct (negb (truthy (PStr match arg with Some q => q | None => "" end)));
    [reflexivity|].
  unfold bind at 1. rewrite get_db_connection_eq. cbv zeta.
  destruct (server w (provider_args (environ w))); [reflexivity|].
  fold (connected w).
  unfold try_except. unfold bind at 1.
  rewrite (execute_select_like P _ (connected w) (table w) eq_refl).
  destruct (Sql.has_nul _); [reflexivity|].
  change (fault (connected w)) with (fault w).
  destruct (fault w AtExecute); reflexivity.
Qed.

(** For a query in ASCII without [%], [_] or backslash, over a table
    whose names and student ids are in ASCII, search is what C3 says:
    when the connection is obtained and the server does not fail, the
    answer is 200 with the dicts of exactly the rows whose [name] or
    [student_id] contains the query, case ignored, from the highest id
    down. *)
Lemma search_students_plain_query (P : platform) (w : world) (q : string) :
  q <> "" ->
  plain q = true ->
  ascii_text q = true ->
  (forall r, In r (table w) ->
             ascii_text (Student.name r) = true
             /\ ascii_text (Student.student_id r) = true) ->
  server w (provider_args (environ w)) = None ->
  fault w AtExecute = None ->
  exists out,
    fst (search_students P (Some q) w)
    = Return (Response (PList (map (student_dict P) out)) 200)
    /\ (forall r, In r out
                  <-> In r (table w)
                      /\ (icontains q (Student.name r) = true
                          \/ icontains q (Student.student_id r) = true))
    /\ descending out
    /\ table (snd (search_students P (Some q) w)) = table w.
Proof.
  intros Hne Hp Hq _ Hsrv Hf.
  exists (Sql.search ("%" ++ q ++ "%") ("%" ++ q ++ "%") (table w)).
  rewrite (search_students_answer P w q Hne), Hsrv, (ascii_text_no_nul q Hq), Hf.
  split; [reflexivity|]. split; [|split; [|apply search_students_table]].
  - intros r. rewrite search_rows, !(ilike_plain q _ Hp). reflexivity.
  - apply order_by_id_desc_descending.
Qed.

Lemma search_students_plain_query_example :
  fst (search_students sample_platform (Some "AN") sample_world)
  = Return (Response (PList [student_dict sample_platform ana]) 200).
Proof. reflexivity. Qed.

(** C3: the query [_] is answered with both rows of the sample table,
    though no [name] and no [student_id] in it contains an underscore:
    the query is pasted into the ILIKE pattern, where [_] stands for any
    character. *)
Theorem search_students_wildcard_query :
  fst (search_students sample_platform (Some "_") sample_world)
  = Return (Response (PList [student_dict sample_platform bob;
                             student_dict sample_platform ana]) 200)
  /\ icontains "_" (Student.name ana) = false
  /\ icontains "_" (Student.student_id ana) = false
  /\ icontains "_" (Student.name bob) = false
  /\ icontains "_" (Student.student_id bob) = false.
Proof. repeat split; reflexivity. Qed.

(** The same for [%]: every row is returned, whatever it holds. *)
Lemma search_students_percent_query (P : platform) (w : world) :
  server w (provider_args (environ w)) = None ->
  fault w AtExecute = None ->
  fst (search_students P (Some "%") w)
  = Return (Response (PList (map (student_dict P) (Sql.order_by_id_desc (table w)))) 200).
Proof.
  intros Hsrv Hf.
  rewrite (search_students_answer P w "%") by discriminate.
  rewrite Hsrv, Hf. cbn [Sql.has_nul Ascii.eqb Bool.eqb orb].
  assert (Hall : Sql.search ("%" ++ "%" ++ "%") ("%" ++ "%" ++ "%") (table w)
                 = Sql.order_by_id_desc (table w)).
  { unfold Sql.search. f_equal. apply forallb_filter_id. apply forallb_forall.
    intros r _. unfold Sql.ilike. simpl append.
    rewrite (like_percent true "%%" (Student.name r)).
    rewrite (like_percent true "%" (Student.name r)).
    rewrite like_percent_only. reflexivity. }
  rewrite Hall. reflexivity.
Qed.

(** ** Requests that send no statement *)

(** [statement_of] misses nothing: a request for which it gives no
    statement leaves no [Execute] in the log. *)
Lemma no_statement_sent (P : platform) (w : world) (c : api_call) :
  statement_of c = None ->
  exists evs,
    log (snd (handle P c w)) = log w ++ evs
    /\ forall q, ~ In (Execute q) evs.
Proof.
  intros Hnone.
  assert (Hsame : snd (handle P c w) = w ->
                  exists evs, log (snd (handle P c w)) = log w ++ evs
                              /\ forall q, ~ In (Execute q) evs).
  { intros ->. exists []. split; [symmetry; apply app_nil_r | intros q []]. }
  destruct c as [|rj|id rj|id|arg]; simpl in Hnone; try discriminate.
  - apply Hsame, no_connection_asked. simpl.
    destruct rj as [data|]; [|reflexivity].
    destruct data; try reflexivity.
    destruct (all_required _); [discriminate | reflexivity].
  - destruct rj as [data|e]; [|apply Hsame; reflexivity].
    assert (Hnd : forall d, data <> PDict d) by (destruct data; discriminate).
    unfold handle. rewrite (update_student_not_a_dict P id data w Hnd).
    rewrite get_db_connection_eq. cbv zeta.
    destruct (server w (provider_args (environ w))) as [e|].
    + eexists. split; [simpl; rewrite <- app_assoc; reflexivity|].
      intros q [H|[H|[]]]; discriminate.
    + rewrite (generic_clause _ _ _ (table w)) by reflexivity.
      eexists. split; [simpl; repeat rewrite <- app_assoc; reflexivity|].
      intros q [H|[H|[H|[]]]]; discriminate.
  - apply Hsame, no_connection_asked. simpl.
    destruct arg as [q|]; [|reflexivity].
    destruct (q =? "")%string; [reflexivity | discriminate].
Qed.

(** * Further properties of the handlers *)

(** ** How a request can end *)

Lemma execute_seq (P : platform) (q : statement) (w w' : world) (r : result cursor) :
  execute P q w = (r, w') -> seq w <= seq w' <= seq w + 1.
Proof.
  unfold execute. simpl.
  destruct (session w) as [rows|]; [|intros [= <- <-]; simpl; lia].
  destruct (adapt_statement q); [intros [= <- <-]; simpl; lia|].
  destruct (fault w AtExecute); [intros [= <- <-]; simpl; lia|].
  destruct q as [|p|p i|i|p1 p2].
  - intros [= <- <-]; simpl; lia.
  - destruct (Sql.convert P p); [|intros [= <- <-]; simpl; lia].
    destruct (Sql.int4_max <=? seq w); [intros [= <- <-]; simpl; lia|].
    destruct (Sql.insert _ _ _ _); intros [= <- <-]; simpl; lia.
  - destruct (Sql.convert P p); [|intros [= <- <-]; simpl; lia].
    destruct (Sql.update _ _ _) as [[rows' n]|]; intros [= <- <-]; simpl; lia.
  - simpl. intros [= <- <-]; simpl; lia.
  - intros [= <- <-]; simpl; lia.
Qed.

(** The sequence of an INTEGER key never passes the largest INTEGER. *)
Lemma execute_seq_limit (P : platform) (q : statement) (w w' : world) (r : result cursor) :
  seq w <= Sql.int4_max ->
  execute P q w = (r, w') -> seq w' <= Sql.int4_max.
Proof.
  intros Hlim. unfold execute. simpl.
  destruct (session w) as [rows|]; [|intros [= <- <-]; simpl; lia].
  destruct (adapt_statement q); [intros [= <- <-]; simpl; lia|].
  destruct (fault w AtExecute); [intros [= <- <-]; simpl; lia|].
  destruct q as [|p|p i|i|p1 p2].
  - intros [= <- <-]; simpl; lia.
  - destruct (Sql.convert P p); [|intros [= <- <-]; simpl; lia].
    destruct (Z.leb_spec Sql.int4_max (seq w)); [intros [= <- <-]; simpl; lia|].
    destruct (Sql.insert _ _ _ _); intros [= <- <-]; simpl; lia.
  - destruct (Sql.convert P p); [|intros [= <- <-]; simpl; lia].
    destruct (Sql.update _ _ _) as [[rows' n]|]; intros [= <- <-]; simpl; lia.
  - simpl. intros [= <- <-]; simpl; lia.
  - intros [= <- <-]; simpl; lia.
Qed.

(** A statement leaves the oracle of failures as it was; it costs the
    connection its link only by a failure that does, and then raises. *)
Lemma execute_effects (P : platform) (q : statement) (w w' : world) (r : result cursor) :
  execute P q w = (r, w') ->
  fault w' = fault w
  /\ (broken w' = broken w
      \/ exists f, fault w AtExecute = Some f /\ link_lost f = true /\ r = Raise (raised f)).
Proof.
  unfold execute. simpl.
  destruct (session w) as [rows|]; [|outcome].
  destruct (adapt_statement q); [outcome|].
  destruct (fault w AtExecute) as [f|].
  { intros [= <- <-]. simpl. split; [reflexivity|].
    destruct (link_lost f) eqn:Hl; [right; eauto | left; apply orb_false_r]. }
  destruct q as [|p|p i|i|p1 p2].
  - outcome.
  - destruct (Sql.convert P p); [|outcome].
    destruct (Sql.int4_max <=? seq w); [outcome|].
    destruct (Sql.insert _ _ _ _); outcome.
  - destruct (Sql.convert P p); [|outcome].
    destruct (Sql.update _ _ _) as [[rows' n]|]; outcome.
  - simpl. outcome.
  - outcome.
Qed.

Lemma commit_raise (w w' : world) (e : exn) :
  commit w = (Raise e, w') ->
  table w' = table w
  /\ seq w' = seq w
  /\ session w' = session w
  /\ log w' = log w ++ [Commit]
  /\ (broken w' = broken w
      \/ exists f, fault w AtCommit = Some f /\ link_lost f = true).
Proof.
  unfold commit. simpl. destruct (fault w AtCommit) as [f|].
  - intros [= _ <-]. simpl. repeat split.
    destruct (link_lost f) eqn:Hl; [right; eauto | left; apply orb_false_r].
  - destruct (session w) eqn:Hs; [discriminate|].
    intros [= _ <-]. simpl. repeat split; [exact Hs|]. left. reflexivity.
Qed.

Lemma commit_return (w w' : world) (u : unit) (rows : list student) :
  session w = Some rows ->
  commit w = (Return u, w') -> w' = set_table rows (add_log Commit w).
Proof.
  intros Hs. unfold commit. simpl. rewrite Hs.
  destruct (fault w AtCommit); intros H; inversion H. reflexivity.
Qed.

(** What a statement that returns has done. *)
Lemma execute_return (P : platform) (q : statement) (w1 w2 : world) (cur : cursor)
      (rows : list student) :
  session w1 = Some rows ->
  execute P q w1 = (Return cur, w2) ->
  match q with
  | SelectAll =>
      w2 = add_log (Execute q) w1
      /\ fetchall cur = Sql.order_by_id_desc rows
  | SelectLike p1 p2 =>
      w2 = add_log (Execute q) w1
      /\ fetchall cur = Sql.search p1 p2 rows
  | InsertRow p =>
      exists c rows',
        Sql.convert P p = Return c
        /\ Sql.insert (seq w1 + 1) (clock w1) c rows = Return rows'
        /\ w2 = set_session (Some rows') (set_seq (seq w1 + 1) (add_log (Execute q) w1))
        /\ cur = Cursor 1 [] [seq w1 + 1]
  | UpdateById p i =>
      exists c rows',
        Sql.convert P p = Return c
        /\ Sql.update i c rows = Return (rows', rowcount cur)
        /\ w2 = set_session (Some rows') (add_log (Execute q) w1)
  | DeleteById i =>
      w2 = set_session (Some (fst (Sql.delete i rows))) (add_log (Execute q) w1)
      /\ rowcount cur = snd (Sql.delete i rows)
  end.
Proof.
  intros Hs. unfold execute. simpl. rewrite Hs.
  destruct (adapt_statement q); [discriminate|].
  destruct (fault w1 AtExecute); [discriminate|].
  destruct q as [|p|p i|i|p1 p2].
  - intros [= <- <-]. split; reflexivity.
  - destruct (Sql.convert P p) as [c|]; [|discriminate].
    destruct (Sql.int4_max <=? seq w1); [discriminate|].
    destruct (Sql.insert _ _ _ _) as [rows'|] eqn:Hi; [|discriminate].
    intros [= <- <-]. exists c, rows'. repeat split; try reflexivity; exact Hi.
  - destruct (Sql.convert P p) as [c|]; [|discriminate].
    destruct (Sql.update _ _ _) as [[rows' n]|] eqn:Hu; [|discriminate].
    intros [= <- <-]. exists c, rows'. repeat split; try reflexivity; exact Hu.
  - simpl. intros [= <- <-]. split; reflexivity.
  - intros [= <- <-]. split; reflexivity.
Qed.

(** The answer of a clause that ends a request after an error. *)
Lemma failed_after (P : platform) (c : api_call) (w w2 : world) (r : response)
      (evs : list event) (rows : list student) (tail : list event) (w' : world) :
  asks_for_connection c = true ->
  server w (provider_args (environ w)) = None ->
  success r = false ->
  table w2 = table w ->
  seq w <= seq w2 <= seq w + 1 ->
  log w2 = log w ++ evs ->
  ~ In Close evs ->
  ~ In Close tail ->
  table w' = table w2 -> seq w' = seq w2 -> session w' = Some rows ->
  log w' = log w2 ++ tail ->
  outcome P c w (Return r, w').
Proof.
  intros Ha Hsrv Hr Ht Hq Hl Hc Hc' Ht' Hq' Hs' Hl'.
  apply (Failed P c w r w' (evs ++ tail) rows); try assumption.
  - congruence.
  - lia.
  - rewrite Hl', Hl, app_assoc. reflexivity.
  - intros H. apply in_app_or in H. tauto.
Qed.

(** The world after the statement of a connected handler. *)
Lemma after_execute (P : platform) (q : statement) (w w2 : world) (r : result cursor) :
  execute P q (connected w) = (r, w2) ->
  table w2 = table w
  /\ seq w <= seq w2 <= seq w + 1
  /\ log w2 = log w ++ [Connect (provider_args (environ w)); Execute q]
  /\ exists rows2, session w2 = Some rows2.
Proof.
  intros Hx.
  destruct (execute_table P q _ _ _ Hx) as [Ht Hl].
  pose proof (execute_seq P q _ _ _ Hx) as Hq.
  destruct (execute_keeps_open P q (connected w) w2 r (table w) eq_refl Hx) as [rows2 Hs].
  split; [exact Ht|]. split; [exact Hq|]. split; [|eauto].
  rewrite Hl. simpl. rewrite <- app_assoc. reflexivity.
Qed.

(** The link after the statement of a connected handler: lost only by a
    failure that loses it, and never when the statement returns. *)
Lemma after_execute_link (P : platform) (q : statement) (w w2 : world)
      (r : result cursor) :
  execute P q (connected w) = (r, w2) ->
  fault w2 = fault w
  /\ (broken w2 = true -> exists st f, fault w st = Some f /\ link_lost f = true)
  /\ (forall cur, r = Return cur -> broken w2 = false).
Proof.
  intros Hx. destruct (execute_effects P q _ _ _ Hx) as [Hf [Hb|(f & Hff & Hl & Hr)]].
  - split; [exact Hf|]. split.
    + intros H. rewrite Hb in H. discriminate.
    + intros _ _. exact Hb.
  - split; [exact Hf|]. split.
    + intros _. exists AtExecute, f. split; [exact Hff | exact Hl].
    + intros cur E. congruence.
Qed.

(** The generic clause of a mutating handler ends the request with a 500
    or, the link lost, with the error of [rollback]. *)
Lemma generic_outcome (P : platform) (c : api_call) (w w2 : world) (e : exn)
      (prefix : string) (evs : list event) (rows : list student) :
  asks_for_connection c = true ->
  server w (provider_args (environ w)) = None ->
  rolls_back c = true ->
  table w2 = table w ->
  seq w <= seq w2 <= seq w + 1 ->
  session w2 = Some rows ->
  log w2 = log w ++ evs ->
  ~ In Close evs ->
  (broken w2 = true -> exists st f, fault w st = Some f /\ link_lost f = true) ->
  outcome P c w
    ((rollback ;;
      print (prefix ++ exn_msg e) ;;
      ret (error_response (exn_msg e) 500)) w2).
Proof.
  intros Ha Hsrv Hrb Ht Hq Hs Hl Hc Hlost.
  destruct (broken w2) eqn:Hb.
  - unfold bind. rewrite (rollback_broken w2 rows Hs Hb).
    destruct (Hlost eq_refl) as (st & f & Hf & Hlf).
    apply (Escaped P c w _ (evs ++ [Rollback]) rows st f); try assumption.
    + simpl. rewrite Hl, app_assoc. reflexivity.
    + intros H. apply in_app_or in H. destruct H as [H|[H|[]]]; [tauto | discriminate].
  - rewrite (generic_clause prefix e w2 rows Hs Hb).
    apply (Failed P c w _ _ (evs ++ [Rollback; Stdout (prefix ++ exn_msg e)]) (table w2));
      try assumption; try reflexivity.
    + simpl. rewrite Hl. repeat rewrite <- app_assoc. reflexivity.
    + intros H. apply in_app_or in H.
      destruct H as [H|[H|[H|[]]]]; [tauto | discriminate | discriminate].
Qed.

(** The same for the two clauses of [add_student] and [update_student]. *)
Lemma clauses_outcome (P : platform) (c : api_call) (w w2 : world) (e : exn)
      (prefix : string) (evs : list event) (rows : list student) :
  asks_for_connection c = true ->
  server w (provider_args (environ w)) = None ->
  rolls_back c = true ->
  table w2 = table w ->
  seq w <= seq w2 <= seq w + 1 ->
  session w2 = Some rows ->
  log w2 = log w ++ evs ->
  ~ In Close evs ->
  (broken w2 = true -> exists st f, fault w st = Some f /\ link_lost f = true) ->
  outcome P c w
    ((if is_integrity e then
        rollback ;;
        ret (error_response "Student ID or Email already exists" 400)
      else
        rollback ;;
        print (prefix ++ exn_msg e) ;;
        ret (error_response (exn_msg e) 500)) w2).
Proof.
  intros Ha Hsrv Hrb Ht Hq Hs Hl Hc Hlost.
  destruct (is_integrity e);
    [|exact (generic_outcome P c w w2 e prefix evs rows Ha Hsrv Hrb Ht Hq Hs Hl Hc Hlost)].
  destruct (broken w2) eqn:Hb.
  - unfold bind. rewrite (rollback_broken w2 rows Hs Hb).
    destruct (Hlost eq_refl) as (st & f & Hf & Hlf).
    apply (Escaped P c w _ (evs ++ [Rollback]) rows st f); try assumption.
    + simpl. rewrite Hl, app_assoc. reflexivity.
    + intros H. apply in_app_or in H. destruct H as [H|[H|[]]]; [tauto | discriminate].
  - rewrite (conflict_clause_run w2 rows Hs Hb).
    apply (Failed P c w _ _ (evs ++ [Rollback]) (table w2));
      try assumption; try reflexivity.
    + simpl. rewrite Hl. repeat rewrite <- app_assoc. reflexivity.
    + intros H. apply in_app_or in H. destruct H as [H|[H|[]]]; [tauto | discriminate].
Qed.

(** The world a failed commit leaves to the clauses. *)
Lemma after_commit_raise (w w2 w3 : world) (e : exn) (q : statement)
      (rows2 : list student) :
  table w2 = table w ->
  seq w <= seq w2 <= seq w + 1 ->
  log w2 = log w ++ [Connect (provider_args (environ w)); Execute q] ->
  session w2 = Some rows2 ->
  fault w2 = fault w ->
  broken w2 = false ->
  commit w2 = (Raise e, w3) ->
  table w3 = table w
  /\ seq w <= seq w3 <= seq w + 1
  /\ session w3 = Some rows2
  /\ log w3 = log w ++ [Connect (provider_args (environ w)); Execute q; Commit]
  /\ (broken w3 = true -> exists st f, fault w st = Some f /\ link_lost f = true).
Proof.
  intros Ht Hq Hl Hs Hf Hb Hc.
  destruct (commit_raise w2 w3 e Hc) as (Ht3 & Hq3 & Hs3 & Hl3 & Hb3).
  split; [congruence|]. split; [lia|]. split; [congruence|].
  split; [rewrite Hl3, Hl, <- app_assoc; reflexivity|].
  intros H. destruct Hb3 as [E|(f & Hff & Hlf)]; [congruence|].
  exists AtCommit, f. rewrite <- Hf. auto.
Qed.

(** Closes the side conditions of [failed_after] and [Succeeded]. *)
Ltac side :=
  simpl; try reflexivity; try eassumption; try lia;
  try (repeat rewrite <- app_assoc; reflexivity);
  try (intros Hin; simpl in Hin; intuition discriminate).

Lemma get_students_outcome (P : platform) (w : world) :
  outcome P GetStudents w (get_students P w).
Proof.
  unfold get_students. unfold bind at 1.
  destruct (server w (provider_args (environ w))) as [e0|] eqn:Hsrv.
  - rewrite (get_db_connection_unreachable w e0 Hsrv). apply Unreachable; side.
  - rewrite (get_db_connection_connected w Hsrv).
    unfold try_except. unfold bind at 1.
    destruct (execute P SelectAll (connected w)) as [[cur|e] w2] eqn:Hx;
      destruct (after_execute P _ w w2 _ Hx) as (Ht & Hq & Hl & rows2 & Hs).
    + unfold bind, cursor_close, emit, close, ret. simpl.
      eapply (Succeeded P _ w _ _ SelectAll cur w2 rows2); side.
    + unfold bind, print, emit, ret. simpl.
      eapply (failed_after P _ w w2 _ _ rows2 [Stdout _]); side.
Qed.

Lemma search_students_outcome (P : platform) (w : world) (arg : option string) :
  outcome P (SearchStudents arg) w (search_students P arg w).
Proof.
  destruct arg as [q|]; [|apply NotAsked; reflexivity].
  unfold search_students, truthy.
  destruct (q =? "")%string eqn:Hq0; cbn [negb].
  - apply NotAsked. simpl. rewrite Hq0. reflexivity.
  - assert (Hasks : asks_for_connection (SearchStudents (Some q)) = true)
      by (simpl; rewrite Hq0; reflexivity).
    assert (Hstmt : statement_of (SearchStudents (Some q))
                    = Some (SelectLike ("%" ++ q ++ "%") ("%" ++ q ++ "%")))
      by (simpl; rewrite Hq0; reflexivity).
    unfold bind at 1.
    destruct (server w (provider_args (environ w))) as [e0|] eqn:Hsrv.
    + rewrite (get_db_connection_unreachable w e0 Hsrv). apply Unreachable; assumption.
    + rewrite (get_db_connection_connected w Hsrv).
      unfold try_except. unfold bind at 1.
      destruct (execute P (SelectLike ("%" ++ q ++ "%") ("%" ++ q ++ "%")) (connected w))
        as [[cur|e] w2] eqn:Hx;
        destruct (after_execute P _ w w2 _ Hx) as (Ht & Hq & Hl & rows2 & Hs).
      * unfold bind, cursor_close, emit, close, ret. cbn [fst snd].
        eapply (Succeeded P _ w _ _ _ cur w2 rows2); try exact Hstmt; side.
      * unfold bind, print, emit, ret. cbn [fst snd].
        eapply (failed_after P _ w w2 _ _ rows2 [Stdout _]); side.
Qed.

Lemma delete_student_outcome (P : platform) (w : world) (id : Z) :
  outcome P (DeleteStudent id) w (delete_student P id w).
Proof.
  unfold delete_student. unfold bind at 1.
  destruct (server w (provider_args (environ w))) as [e0|] eqn:Hsrv.
  - rewrite (get_db_connection_unreachable w e0 Hsrv). apply Unreachable; side.
  - rewrite (get_db_connection_connected w Hsrv).
    unfold try_except. unfold bind at 1.
    destruct (execute P (DeleteById id) (connected w)) as [[cur|e] w2] eqn:Hx;
      destruct (after_execute P _ w w2 _ Hx) as (Ht & Hq & Hl & rows2 & Hs);
      destruct (after_execute_link P _ w w2 _ Hx) as (Hf2 & Hlost & Hret).
    + pose proof (Hret cur eq_refl) as Hb2.
      destruct (rowcount cur =? 0)%nat eqn:Hrc.
      * unfold bind. rewrite (rollback_open w2 rows2 Hs Hb2). unfold ret.
        eapply (failed_after P _ w w2 _ _ _ [Rollback]); side.
      * assert (Hcm : commits (DeleteStudent id) cur = true)
          by (simpl; rewrite Hrc; reflexivity).
        unfold bind at 1. destruct (commit w2) as [[u|e] w3] eqn:Hc.
        -- rewrite (commit_return w2 w3 u rows2 Hs Hc).
           unfold bind, cursor_close, emit, close, ret. cbn [fst snd].
           eapply (Succeeded P _ w _ _ (DeleteById id) cur w2 rows2);
             rewrite ?Hcm; side.
        -- destruct (after_commit_raise w w2 w3 e _ rows2 Ht Hq Hl Hs Hf2 Hb2 Hc)
             as (Ht3 & Hq3 & Hs3 & Hl3 & Hlost3).
           eapply (generic_outcome P _ w w3 e _ _ rows2); side.
    + eapply (generic_outcome P _ w w2 e _ _ rows2); side.
Qed.

Lemma update_student_outcome (P : platform) (w : world) (id : Z)
      (request_json : result pyval) :
  outcome P (UpdateStudent id request_json) w (update_student P id request_json w).
Proof.
  destruct request_json as [data|e0]; [|apply NotAsked; reflexivity].
  assert (Hdict : (exists d, data = PDict d) \/ (forall d, data <> PDict d)).
  { destruct data; try (right; discriminate). left. eauto. }
  destruct Hdict as [[d ->]|Hnd].
  - rewrite (update_student_dict P id d w).
    destruct (server w (provider_args (environ w))) as [e0|] eqn:Hsrv.
    + rewrite (get_db_connection_unreachable w e0 Hsrv). apply Unreachable; side.
    + rewrite (get_db_connection_connected w Hsrv).
      unfold try_except. unfold bind at 1.
      destruct (execute P (UpdateById (bound_params d) id) (connected w))
        as [[cur|e] w2] eqn:Hx;
        destruct (after_execute P _ w w2 _ Hx) as (Ht & Hq & Hl & rows2 & Hs);
        destruct (after_execute_link P _ w w2 _ Hx) as (Hf2 & Hlost & Hret).
      * pose proof (Hret cur eq_refl) as Hb2.
        destruct (rowcount cur =? 0)%nat eqn:Hrc.
        -- unfold bind. rewrite (rollback_open w2 rows2 Hs Hb2). unfold ret.
           eapply (failed_after P _ w w2 _ _ _ [Rollback]); side.
        -- assert (Hcm : commits (UpdateStudent id (Return (PDict d))) cur = true)
             by (simpl; rewrite Hrc; reflexivity).
           unfold bind at 1. destruct (commit w2) as [[u|e] w3] eqn:Hc.
           ++ rewrite (commit_return w2 w3 u rows2 Hs Hc).
              unfold bind, cursor_close, emit, close, ret. cbn [fst snd].
              eapply (Succeeded P _ w _ _ (UpdateById (bound_params d) id) cur w2 rows2);
                rewrite ?Hcm; side.
           ++ destruct (after_commit_raise w w2 w3 e _ rows2 Ht Hq Hl Hs Hf2 Hb2 Hc)
                as (Ht3 & Hq3 & Hs3 & Hl3 & Hlost3).
              eapply (clauses_outcome P _ w w3 e _ _ rows2); side.
      * eapply (clauses_outcome P _ w w2 e _ _ rows2); side.
  - rewrite (update_student_not_a_dict P id data w Hnd).
    destruct (server w (provider_args (environ w))) as [e0|] eqn:Hsrv.
    + rewrite (get_db_connection_unreachable w e0 Hsrv). apply Unreachable; side.
    + rewrite (get_db_connection_connected w Hsrv).
      rewrite (generic_clause _ _ (connected w) (table w) eq_refl eq_refl).
      eapply (Failed P _ w _ _ [Connect _; Rollback; Stdout _] (table w)); side.
Qed.

Lemma add_student_outcome (P : platform) (w : world) (request_json : result pyval) :
  outcome P (AddStudent request_json) w (add_student P request_json w).
Proof.
  destruct request_json as [data|e0]; [|apply NotAsked; reflexivity].
  assert (Hdict : (exists d, data = PDict d) \/ (forall d, data <> PDict d)).
  { destruct data; try (right; discriminate). left. eauto. }
  destruct Hdict as [[d ->]|Hnd].
  2: { rewrite (add_student_not_a_dict P w data Hnd). apply NotAsked.
       destruct data; try reflexivity. exfalso. eapply Hnd. reflexivity. }
  destruct (all_required d) eqn:Hreq.
  2: { destruct (find (fun k => negb (truthy (item d k PNone))) required_fields)
         as [g|] eqn:Hg.
       - rewrite (add_student_invalid P d g w Hg). apply NotAsked. simpl. exact Hreq.
       - apply find_all_required in Hg. congruence. }
  assert (Hasks : asks_for_connection (AddStudent (Return (PDict d))) = true)
    by (simpl; exact Hreq).
  assert (Hstmt : statement_of (AddStudent (Return (PDict d)))
                  = Some (InsertRow (bound_params d)))
    by (simpl; rewrite Hreq; reflexivity).
  rewrite (add_student_valid P d w Hreq).
  destruct (server w (provider_args (environ w))) as [e0|] eqn:Hsrv.
  - rewrite (get_db_connection_unreachable w e0 Hsrv). apply Unreachable; assumption.
  - rewrite (get_db_connection_connected w Hsrv).
    unfold try_except. unfold bind at 1.
    destruct (execute P (InsertRow (bound_params d)) (connected w))
      as [[cur|e] w2] eqn:Hx;
      destruct (after_execute P _ w w2 _ Hx) as (Ht & Hq & Hl & rows2 & Hs);
      destruct (after_execute_link P _ w w2 _ Hx) as (Hf2 & Hlost & Hret).
    + pose proof (Hret cur eq_refl) as Hb2.
      destruct (execute_return P (InsertRow (bound_params d)) (connected w) w2 cur
                  (table w) eq_refl Hx)
        as (c & rows' & _ & _ & _ & Hcur).
      assert (Hcm : commits (AddStudent (Return (PDict d))) cur = true)
        by (rewrite Hcur; reflexivity).
      unfold bind at 1. unfold lift at 1. rewrite Hcur at 1. cbn [fetchone_0 returning].
      unfold bind at 1. destruct (commit w2) as [[u|e] w3] eqn:Hc.
      * rewrite (commit_return w2 w3 u rows2 Hs Hc).
        unfold bind, cursor_close, emit, close, ret. cbn [fst snd].
        eapply (Succeeded P _ w _ _ (InsertRow (bound_params d)) cur w2 rows2);
          rewrite ?Hcm; try exact Hstmt; side.
      * destruct (after_commit_raise w w2 w3 e _ rows2 Ht Hq Hl Hs Hf2 Hb2 Hc)
          as (Ht3 & Hq3 & Hs3 & Hl3 & Hlost3).
        eapply (clauses_outcome P _ w w3 e _ _ rows2); side.
    + eapply (clauses_outcome P _ w w2 e _ _ rows2); side.
Qed.

(** Every request ends in one of the five ways of [outcome]. *)
Lemma handle_outcome (P : platform) (c : api_call) (w : world) :
  outcome P c w (handle P c w).
Proof.
  destruct c as [|rj|id rj|id|arg]; unfold handle.
  - apply get_students_outcome.
  - apply add_student_outcome.
  - apply update_student_outcome.
  - apply delete_student_outcome.
  - apply search_students_outcome.
Qed.

Lemma success_error_response (msg : string) :
  success (error_response msg 500) = false.
Proof. reflexivity. Qed.

(** ** Atomicity, escapes and the release of the connection *)

(** The committed table after a request: what it was, or, when the
    request is answered 200 or 201 after a commit, what its one statement
    made of the rows in the transaction. *)
Lemma committed_rows (P : platform) (c : api_call) (w : world) :
  table (snd (handle P c w)) = table w
  \/ exists r q cur w2,
       fst (handle P c w) = Return r
       /\ success r = true
       /\ statement_of c = Some q
       /\ commits c cur = true
       /\ execute P q (connected w) = (Return cur, w2)
       /\ session w2 = Some (table (snd (handle P c w))).
Proof.
  destruct (handle_outcome P c w)
    as [r Ha|e Ha Hsrv|r w' evs rows Ha Hsrv Hr Ht Hq Hs Hl Hc
        |w' evs rows st f Ha Hsrv Hrb Hf Hlf Ht Hq Hs Hl Hc
        |r w' q cur w2 rows2 Hsrv Hr Hq Hx Hs2 Ht Hseq Hs' Hl].
  - left. reflexivity.
  - left. reflexivity.
  - left. exact Ht.
  - left. exact Ht.
  - simpl. destruct (commits c cur) eqn:Hcm; [|left; exact Ht].
    right. exists r, q, cur, w2. rewrite Ht.
    repeat split; try reflexivity; assumption.
Qed.

(** X1: a request changes the committed table only when it is answered
    200 or 201; with any other answer, and when an exception escapes, the
    table is what it was: a mutation that fails is rolled back or never
    committed. *)
Theorem table_changes_only_on_success (P : platform) (c : api_call) (w : world) :
  table (snd (handle P c w)) = table w
  \/ exists r, fst (handle P c w) = Return r /\ success r = true.
Proof.
  destruct (committed_rows P c w) as [H|(r & q & cur & w2 & Hr & Hs & _)];
    [left; exact H | right; exists r; split; assumption].
Qed.



(** The exception of X2 is met: the server gone at the DELETE, the error
    of [rollback] leaves [delete_student]. *)
Lemma delete_student_escape_example :
  fst (delete_student sample_platform 1 failing_world) = Raise closed.
Proof. reflexivity. Qed.

(** X3: a handler that obtained its connection closes it exactly when it
    answers 200 or 201: then the last thing it does is [conn.close()];
    with any other answer the connection is left open and [close] was
    not called. *)
Theorem connection_closed_only_on_success (P : platform) (c : api_call) (w : world)
        (r : response) :
  asks_for_connection c = true ->
  server w (provider_args (environ w)) = None ->
  fst (handle P c w) = Return r ->
  exists evs,
    log (snd (handle P c w)) = log w ++ evs
    /\ if success r
       then session (snd (handle P c w)) = None
            /\ exists evs', evs = evs' ++ [Close]
       else session (snd (handle P c w)) <> None
            /\ ~ In Close evs.
Proof.
  intros Hasks Hsrv0.
  destruct (handle_outcome P c w)
    as [r0 Ha|e Ha Hsrv|r0 w' evs rows Ha Hsrv Hr Ht Hq Hs Hl Hc
        |w' evs rows st f Ha Hsrv Hrb Hf Hlf Ht Hq Hs Hl Hc
        |r0 w' q cur w2 rows2 Hsrv Hr Hq Hx Hs2 Ht Hseq Hs' Hl];
    try congruence; simpl; intros [= <-].
  - exists evs. split; [exact Hl|]. rewrite Hr. split; [congruence | exact Hc].
  - destruct (after_execute P q w w2 _ Hx) as (_ & _ & Hl2 & _).
    eexists. split; [rewrite Hl, Hl2; rewrite <- app_assoc; reflexivity|].
    rewrite Hr. split; [exact Hs'|].
    exists ([Connect (provider_args (environ w)); Execute q]
              ++ (if commits c cur then [Commit] else []) ++ [CloseCursor]).
    repeat rewrite <- app_assoc. reflexivity.
Qed.

Lemma connection_closed_only_on_success_witness :
  exists evs,
    log (snd (handle sample_platform (DeleteStudent 9) sample_world))
    = log sample_world ++ evs
    /\ session (snd (handle sample_platform (DeleteStudent 9) sample_world)) <> None
    /\ ~ In Close evs.
Proof.
  destruct (connection_closed_only_on_success sample_platform (DeleteStudent 9)
              sample_world (error_response "Student not found" 404))
    as (evs & Hl & Hopen); try reflexivity.
  exists evs. split; [exact Hl | exact Hopen].
Defined.

(** ** The constraints of the table are kept *)

Lemma NoDup_map_snoc {A B : Type} (f : A -> B) (l : list A) (x : A) :
  NoDup (map f l) ->
  (forall y, In y l -> f y <> f x) ->
  NoDup (map f (l ++ [x])).
Proof.
  intros Hnd Hfresh. induction l as [|a l IH]; simpl.
  - constructor; [intros [] | constructor].
  - inversion Hnd as [|b m Hnotin Hnd' [Hb Hm]]; subst.
    constructor.
    + rewrite map_app. simpl. intros Hin. apply in_app_or in Hin.
      destruct Hin as [Hin|[Hin|[]]]; [contradiction|].
      apply (Hfresh a); [left; reflexivity | symmetry; exact Hin].
    + apply IH; [exact Hnd'|]. intros y Hy. apply Hfresh. right. exact Hy.
Qed.

(** Dropping rows keeps a column free of duplicates. *)
Lemma filter_keeps_column (B : Type) (key : student -> B) (keep : student -> bool)
      (rows : list student) (Hcol : NoDup (map key rows)) :
  NoDup (map key (filter keep rows)).
Proof.
  revert Hcol. induction rows as [|a rows IH]; intros Hcol; [exact Hcol|].
  apply NoDup_cons_iff in Hcol. destruct Hcol as [Hfresh Hrest].
  simpl. destruct (keep a); [|exact (IH Hrest)].
  simpl. apply NoDup_cons_iff. split; [|exact (IH Hrest)].
  intros Hin. apply Hfresh. apply in_map_iff in Hin.
  destruct Hin as (y & Hy & Hin). apply filter_In in Hin.
  apply in_map_iff. exists y. tauto.
Qed.

(** Replacing the value of the rows picked by [hit] by [b] keeps a
    column free of duplicates when at most one row is picked and no other
    row holds [b]. *)
Lemma NoDup_map_replace {A B : Type} (f : A -> B) (hit : A -> bool) (b : B) (l : list A) :
  NoDup (map f l) ->
  (forall x, In x l -> hit x = false -> f x <> b) ->
  (List.length (filter hit l) <= 1)%nat ->
  NoDup (map (fun x => if hit x then b else f x) l).
Proof.
  induction l as [|a l IH]; simpl; intros Hnd Hfree Hone; [constructor|].
  inversion Hnd as [|b' m Hnotin Hnd' [Hb Hm]]; subst.
  destruct (hit a) eqn:Ha.
  - simpl in Hone.
    assert (Hnone : filter hit l = [])
      by (destruct (filter hit l); [reflexivity | simpl in Hone; lia]).
    assert (Hmiss : forall y, In y l -> hit y = false).
    { intros y Hy. destruct (hit y) eqn:E; [|reflexivity].
      assert (Hin : In y (filter hit l)) by (apply filter_In; auto).
      rewrite Hnone in Hin. destruct Hin. }
    assert (Hsame : map (fun x => if hit x then b else f x) l = map f l).
    { apply map_ext_in. intros y Hy. rewrite (Hmiss y Hy). reflexivity. }
    rewrite Hsame. constructor; [|exact Hnd'].
    intros Hin. apply in_map_iff in Hin. destruct Hin as (y & Hy & Hin).
    apply (Hfree y); auto.
  - constructor.
    + intros Hin. apply in_map_iff in Hin. destruct Hin as (y & Hy & Hin).
      destruct (hit y) eqn:E.
      * apply (Hfree a); [left; reflexivity | exact Ha | symmetry; exact Hy].
      * apply Hnotin. rewrite <- Hy. apply in_map. exact Hin.
    + apply IH; [exact Hnd' | intros x Hx; apply Hfree; right; exact Hx | exact Hone].
Qed.

Lemma insert_rows (i : Z) (now : datetime) (c : Sql.candidate)
      (rows rows' : list student) :
  Sql.insert i now c rows = Return rows' ->
  exists sid nm em,
    Sql.c_student_id c = Some sid /\ Sql.c_name c = Some nm /\ Sql.c_email c = Some em
    /\ rows' = rows ++ [Student.Row i sid nm em (Sql.c_phone c) (Sql.c_course c)
                          (Sql.c_year c) (Sql.c_address c) (Some now)]
    /\ forall r, In r rows ->
                 Student.id r <> i /\ Student.student_id r <> sid /\ Student.email r <> em.
Proof.
  unfold Sql.insert.
  destruct (Sql.c_student_id c) as [sid|]; [|discriminate].
  destruct (Sql.c_name c) as [nm|]; [|discriminate].
  destruct (Sql.c_email c) as [em|]; [|discriminate].
  match goal with |- context [existsb ?f rows] => destruct (existsb f rows) eqn:Hex end;
    [discriminate|].
  intros [= <-]. exists sid, nm, em. do 4 (split; [reflexivity|]).
  intros r Hr.
  assert (Hnot : (Student.id r =? i) || (Student.student_id r =? sid)%string
                 || (Student.email r =? em)%string = false).
  { match goal with |- ?t = false => destruct t eqn:E end; [|reflexivity].
    exfalso.
    assert (Hx : existsb (fun r0 => (Student.id r0 =? i)
                                    || (Student.student_id r0 =? sid)%string
                                    || (Student.email r0 =? em)%string) rows = true)
      by (apply existsb_exists; exists r; split; [exact Hr | exact E]).
    congruence. }
  apply orb_false_elim in Hnot. destruct Hnot as [Hnot H3].
  apply orb_false_elim in Hnot. destruct Hnot as [H1 H2].
  split; [apply Z.eqb_neq; exact H1|].
  split; apply String.eqb_neq; assumption.
Qed.

Lemma insert_wf (i : Z) (now : datetime) (c : Sql.candidate) (rows rows' : list student) :
  Sql.insert i now c rows = Return rows' -> wf_table rows -> wf_table rows'.
Proof.
  intros Hi (H1 & H2 & H3).
  destruct (insert_rows i now c rows rows' Hi) as (sid & nm & em & _ & _ & _ & -> & Hfresh).
  repeat split; apply NoDup_map_snoc; try assumption;
    intros y Hy; simpl; apply (Hfresh y Hy).
Qed.

Lemma update_rows (i : Z) (c : Sql.candidate) (rows rows' : list student) (n : nat) :
  Sql.update i c rows = Return (rows', n) ->
  (rows' = rows /\ n = O /\ forall r, In r rows -> Student.id r <> i)
  \/ exists sid nm em,
       Sql.c_student_id c = Some sid /\ Sql.c_name c = Some nm /\ Sql.c_email c = Some em
       /\ rows' = map (fun r => if Student.id r =? i
                                then Sql.overwrite sid nm em c r else r) rows
       /\ n = 1%nat
       /\ List.length (filter (fun r => Student.id r =? i) rows) = 1%nat
       /\ forall r, In r rows -> Student.id r <> i ->
                    Student.student_id r <> sid /\ Student.email r <> em.
Proof.
  unfold Sql.update.
  destruct (filter (fun r => Student.id r =? i) rows) as [|h hit] eqn:Hf.
  - intros [= <- <-]. left. repeat split.
    intros r Hr E. assert (Hin : In r (filter (fun r => Student.id r =? i) rows))
      by (apply filter_In; split; [exact Hr | apply Z.eqb_eq; exact E]).
    rewrite Hf in Hin. destruct Hin.
  - destruct (Sql.c_student_id c) as [sid|]; [|discriminate].
    destruct (Sql.c_name c) as [nm|]; [|discriminate].
    destruct (Sql.c_email c) as [em|]; [|discriminate].
    match goal with |- context [existsb ?f rows] => destruct (existsb f rows) eqn:Hex end;
      [discriminate|].
    destruct (1 <? List.length (h :: hit))%nat eqn:Hlen; [discriminate|].
    simpl orb. cbv iota. intros [= <- <-]. right.
    apply Nat.ltb_ge in Hlen. simpl in Hlen.
    exists sid, nm, em. do 4 (split; [reflexivity|]).
    split; [simpl; lia|]. split; [rewrite ?Hf; simpl; lia|].
    intros r Hr Hid.
    assert (Hnot : (Student.student_id r =? sid)%string
                   || (Student.email r =? em)%string = false).
    { match goal with |- ?t = false => destruct t eqn:E end; [|reflexivity].
      exfalso.
      assert (Hx : existsb (fun r0 => negb (Student.id r0 =? i)
                                      && ((Student.student_id r0 =? sid)%string
                                          || (Student.email r0 =? em)%string)) rows = true)
        by (apply existsb_exists; exists r; split; [exact Hr|];
            apply Z.eqb_neq in Hid; rewrite Hid, E; reflexivity).
      congruence. }
    apply orb_false_elim in Hnot. destruct Hnot as [H1 H2].
    split; apply String.eqb_neq; assumption.
Qed.

Lemma update_wf (i : Z) (c : Sql.candidate) (rows rows' : list student) (n : nat) :
  Sql.update i c rows = Return (rows', n) -> wf_table rows -> wf_table rows'.
Proof.
  intros Hu (H1 & H2 & H3).
  destruct (update_rows i c rows rows' n Hu)
    as [(-> & _ & _)|(sid & nm & em & _ & _ & _ & -> & _ & Hone & Hfree)];
    [repeat split; assumption|].
  repeat split; rewrite map_map.
  - erewrite map_ext; [exact H1|].
    intros r. simpl. destruct (Student.id r =? i); reflexivity.
  - erewrite map_ext;
      [apply (NoDup_map_replace Student.student_id (fun r => Student.id r =? i) sid rows H2)|].
    + intros x Hx Hmiss. apply Z.eqb_neq in Hmiss. apply (Hfree x Hx Hmiss).
    + rewrite Hone. apply Nat.le_refl.
    + intros r. simpl. destruct (Student.id r =? i); reflexivity.
  - erewrite map_ext;
      [apply (NoDup_map_replace Student.email (fun r => Student.id r =? i) em rows H3)|].
    + intros x Hx Hmiss. apply Z.eqb_neq in Hmiss. apply (Hfree x Hx Hmiss).
    + rewrite Hone. apply Nat.le_refl.
    + intros r. simpl. destruct (Student.id r =? i); reflexivity.
Qed.

Lemma delete_wf (i : Z) (rows : list student) :
  wf_table rows -> wf_table (fst (Sql.delete i rows)).
Proof.
  intros (H1 & H2 & H3). simpl. repeat split; apply filter_keeps_column; assumption.
Qed.

(** The rows a statement leaves in the transaction satisfy the
    constraints when the rows it found did. *)
Lemma execute_keeps_constraints (P : platform) (q : statement) (w1 w2 : world)
      (cur : cursor) (rows rows2 : list student) :
  session w1 = Some rows ->
  execute P q w1 = (Return cur, w2) ->
  session w2 = Some rows2 ->
  wf_table rows -> wf_table rows2.
Proof.
  intros Hs Hx Hs2 Hwf.
  pose proof (execute_return P q w1 w2 cur rows Hs Hx) as Hr.
  destruct q as [|p|p i|i|p1 p2].
  - destruct Hr as [-> _]. simpl in Hs2. congruence.
  - destruct Hr as (c & rows' & _ & Hi & -> & _). simpl in Hs2.
    injection Hs2 as <-. exact (insert_wf _ _ _ _ _ Hi Hwf).
  - destruct Hr as (c & rows' & _ & Hu & ->). simpl in Hs2.
    injection Hs2 as <-. exact (update_wf _ _ _ _ _ Hu Hwf).
  - destruct Hr as [-> _]. simpl in Hs2. injection Hs2 as <-.
    exact (delete_wf i rows Hwf).
  - destruct Hr as [-> _]. simpl in Hs2. congruence.
Qed.

(** X4: whatever the request and whatever the world, a handler leaves the
    committed table within the constraints of its schema when it found
    it so: no two rows share an [id], a [student_id] or an [email]. *)
Theorem handlers_keep_constraints (P : platform) (c : api_call) (w : world) :
  wf_table (table w) -> wf_table (table (snd (handle P c w))).
Proof.
  intros Hwf.
  destruct (committed_rows P c w) as [->|(r & q & cur & w2 & _ & _ & _ & _ & Hx & Hs2)];
    [exact Hwf|].
  exact (execute_keeps_constraints P q (connected w) w2 cur (table w) _ eq_refl Hx Hs2 Hwf).
Qed.

Lemma handlers_keep_constraints_witness :
  wf_table (table (snd (handle sample_platform
                          (AddStudent (Return (PDict [("student_id", PStr "S3");
                                                      ("name", PStr "Cy");
                                                      ("email", PStr "c@x.com")])))
                          sample_world))).
Proof.
  apply (handlers_keep_constraints sample_platform _ sample_world).
  simpl. repeat split; repeat constructor; simpl; intuition discriminate.
Defined.

Lemma execute_keeps_ids_drawn (P : platform) (q : statement) (w1 w2 : world)
      (cur : cursor) (rows rows2 : list student) :
  session w1 = Some rows ->
  execute P q w1 = (Return cur, w2) ->
  session w2 = Some rows2 ->
  ids_drawn rows (seq w1) -> ids_drawn rows2 (seq w2).
Proof.
  intros Hs Hx Hs2 Hd. unfold ids_drawn in *.
  pose proof (execute_return P q w1 w2 cur rows Hs Hx) as Hr.
  destruct q as [|p|p i|i|p1 p2].
  - destruct Hr as [-> _]. simpl in Hs2 |- *. congruence.
  - destruct Hr as (c & rows' & _ & Hi & -> & _). simpl in Hs2 |- *.
    injection Hs2 as <-.
    destruct (insert_rows _ _ _ _ _ Hi) as (sid & nm & em & _ & _ & _ & -> & _).
    apply Forall_app. split.
    + eapply Forall_impl; [|exact Hd]. intros r Hr. simpl in Hr. lia.
    + constructor; [simpl; lia | constructor].
  - destruct Hr as (c & rows' & _ & Hu & ->). simpl in Hs2 |- *.
    injection Hs2 as <-.
    destruct (update_rows _ _ _ _ _ Hu)
      as [(-> & _ & _)|(sid & nm & em & _ & _ & _ & -> & _)]; [exact Hd|].
    apply Forall_map. eapply Forall_impl; [|exact Hd].
    intros r Hr. simpl in Hr |- *. destruct (Student.id r =? i); exact Hr.
  - destruct Hr as [-> _]. simpl in Hs2 |- *. injection Hs2 as <-.
    apply Forall_forall. intros r Hr. apply filter_In in Hr.
    rewrite Forall_forall in Hd. apply Hd. tauto.
  - destruct Hr as [-> _]. simpl in Hs2 |- *. congruence.
Qed.

(** The id of a row a statement leaves in the transaction is the id of a
    row it found, or the next value of the sequence, which no row it
    found has. *)
Lemma execute_ids (P : platform) (q : statement) (w1 w2 : world)
      (cur : cursor) (rows rows2 : list student) (r : student) :
  session w1 = Some rows ->
  execute P q w1 = (Return cur, w2) ->
  session w2 = Some rows2 ->
  ids_drawn rows (seq w1) ->
  In r rows2 ->
  In (Student.id r) (map Student.id rows)
  \/ (Student.id r = seq w1 + 1 /\ ~ In (Student.id r) (map Student.id rows)).
Proof.
  intros Hs Hx Hs2 Hd Hin. unfold ids_drawn in Hd. rewrite Forall_forall in Hd.
  pose proof (execute_return P q w1 w2 cur rows Hs Hx) as Hr.
  destruct q as [|p|p i|i|p1 p2].
  - destruct Hr as [-> _]. simpl in Hs2. left. apply in_map.
    rewrite Hs in Hs2. injection Hs2 as <-. exact Hin.
  - destruct Hr as (c & rows' & _ & Hi & -> & _). simpl in Hs2.
    injection Hs2 as <-.
    destruct (insert_rows _ _ _ _ _ Hi) as (sid & nm & em & _ & _ & _ & -> & _).
    apply in_app_or in Hin. destruct Hin as [Hin|[<-|[]]].
    + left. apply in_map. exact Hin.
    + right. simpl. split; [reflexivity|].
      intros Hused. apply in_map_iff in Hused. destruct Hused as (r0 & E & Hr0).
      specialize (Hd r0 Hr0). simpl in Hd. lia.
  - destruct Hr as (c & rows' & _ & Hu & ->). simpl in Hs2.
    injection Hs2 as <-. left.
    destruct (update_rows _ _ _ _ _ Hu)
      as [(-> & _ & _)|(sid & nm & em & _ & _ & _ & -> & _)];
      [apply in_map; exact Hin|].
    apply in_map_iff in Hin. destruct Hin as (r0 & <- & Hr0).
    apply in_map_iff. exists r0. split; [|exact Hr0].
    destruct (Student.id r0 =? i); reflexivity.
  - destruct Hr as [-> _]. simpl in Hs2. injection Hs2 as <-.
    left. apply in_map. apply filter_In in Hin. tauto.
  - destruct Hr as [-> _]. simpl in Hs2. left. apply in_map.
    rewrite Hs in Hs2. injection Hs2 as <-. exact Hin.
Qed.

(** X5: ids are never reused: when every id in the table was drawn from
    the sequence (none exceeds its last value), this is still so after
    any request, the sequence never goes back, and every row of the table
    after the request has the id of a row of the table before it or a
    new id, the next value of the sequence, which no row of the table
    before it has. *)
Theorem handlers_keep_ids_drawn (P : platform) (c : api_call) (w : world) :
  ids_drawn (table w) (seq w) ->
  ids_drawn (table (snd (handle P c w))) (seq (snd (handle P c w)))
  /\ seq w <= seq (snd (handle P c w))
  /\ (forall r,
        In r (table (snd (handle P c w))) ->
        In (Student.id r) (map Student.id (table w))
        \/ (Student.id r = seq w + 1
            /\ ~ In (Student.id r) (map Student.id (table w)))).
Proof.
  intros Hd.
  assert (Hsame : forall w', table w' = table w -> seq w <= seq w' ->
            ids_drawn (table w') (seq w')
            /\ seq w <= seq w'
            /\ (forall r, In r (table w') ->
                          In (Student.id r) (map Student.id (table w))
                          \/ (Student.id r = seq w + 1
                              /\ ~ In (Student.id r) (map Student.id (table w))))).
  { intros w' Ht Hq. rewrite Ht. split; [|split; [exact Hq|]].
    - unfold ids_drawn in *. eapply Forall_impl; [|exact Hd].
      intros r0 Hr0. simpl in Hr0. lia.
    - intros r Hr. left. apply in_map. exact Hr. }
  destruct (handle_outcome P c w)
    as [r Ha|e Ha Hsrv|r w' evs rows Ha Hsrv Hr Ht Hq Hs Hl Hc
        |w' evs rows st f Ha Hsrv Hrb Hf Hlf Ht Hq Hs Hl Hc
        |r w' q cur w2 rows2 Hsrv Hr Hq Hx Hs2 Ht Hseq Hs' Hl]; cbn [fst snd].
  - apply Hsame; [reflexivity | lia].
  - apply Hsame; [reflexivity | simpl; lia].
  - apply Hsame; [exact Ht | lia].
  - apply Hsame; [exact Ht | lia].
  - pose proof (execute_seq P q _ _ _ Hx) as Hq2. simpl in Hq2.
    destruct (commits c cur); [|apply Hsame; [exact Ht | lia]].
    rewrite Ht, Hseq. split; [|split; [lia|]].
    + exact (execute_keeps_ids_drawn P q (connected w) w2 cur (table w) rows2
               eq_refl Hx Hs2 Hd).
    + intros r0 Hr0.
      exact (execute_ids P q (connected w) w2 cur (table w) rows2 r0
               eq_refl Hx Hs2 Hd Hr0).
Qed.

Lemma handlers_keep_ids_drawn_witness :
  ids_drawn
    (table (snd (handle sample_platform
                   (AddStudent (Return (PDict [("student_id", PStr "S3");
                                               ("name", PStr "Cy");
                                               ("email", PStr "c@x.com")])))
                   sample_world)))
    (seq (snd (handle sample_platform
                 (AddStudent (Return (PDict [("student_id", PStr "S3");
                                             ("name", PStr "Cy");
                                             ("email", PStr "c@x.com")])))
                 sample_world)))
  /\ seq sample_world
     <= seq (snd (handle sample_platform
                    (AddStudent (Return (PDict [("student_id", PStr "S3");
                                                ("name", PStr "Cy");
                                                ("email", PStr "c@x.com")])))
                    sample_world))
  /\ (forall r,
        In r (table (snd (handle sample_platform
                            (AddStudent (Return (PDict [("student_id", PStr "S3");
                                                        ("name", PStr "Cy");
                                                        ("email", PStr "c@x.com")])))
                            sample_world))) ->
        In (Student.id r) (map Student.id (table sample_world))
        \/ (Student.id r = seq sample_world + 1
            /\ ~ In (Student.id r) (map Student.id (table sample_world)))).
Proof.
  apply (handlers_keep_ids_drawn sample_platform
           (AddStudent (Return (PDict [("student_id", PStr "S3"); ("name", PStr "Cy");
                                       ("email", PStr "c@x.com")])))
           sample_world).
  repeat constructor; simpl; lia.
Defined.

(** ** Listing *)

(** [get_students] when the server is reachable and does not fail. *)
Lemma get_students_ok (P : platform) (w : world) :
  server w (provider_args (environ w)) = None ->
  fault w AtExecute = None ->
  get_students P w
  = (Return (Response (PList (map (student_dict P) (Sql.order_by_id_desc (table w)))) 200),
     set_session None
       (add_log Close (add_log CloseCursor (add_log (Execute SelectAll) (connected w))))).
Proof.
  intros Hsrv Hf. unfold get_students. unfold bind at 1.
  rewrite (get_db_connection_connected w Hsrv).
  unfold try_except. unfold bind at 1. unfold execute. simpl. rewrite Hf. reflexivity.
Qed.

(** X6: when the server is reachable and does not fail, [get_students]
    answers 200 with the dict of every row of the table, each row once,
    from the highest id down, and closes its connection. *)
Theorem get_students_lists_all (P : platform) (w : world) :
  server w (provider_args (environ w)) = None ->
  fault w AtExecute = None ->
  exists out,
    fst (get_students P w) = Return (Response (PList (map (student_dict P) out)) 200)
    /\ Permutation out (table w)
    /\ descending out
    /\ session (snd (get_students P w)) = None.
Proof.
  intros Hsrv Hf. exists (Sql.order_by_id_desc (table w)).
  rewrite (get_students_ok P w Hsrv Hf).
  split; [reflexivity|]. split; [apply order_by_id_desc_perm|].
  split; [apply order_by_id_desc_descending | reflexivity].
Qed.

Lemma get_students_lists_all_witness :
  exists out,
    fst (get_students sample_platform sample_world)
    = Return (Response (PList (map (student_dict sample_platform) out)) 200)
    /\ Permutation out [ana; bob]
    /\ descending out
    /\ session (snd (get_students sample_platform sample_world)) = None.
Proof.
  apply (get_students_lists_all sample_platform sample_world); reflexivity.
Defined.

(** X7: reading never writes: in every world, whatever the query and
    whatever fails, [get_students] and [search_students] leave the
    committed table as it was. *)
Theorem reads_leave_table (P : platform) (w : world) (arg : option string) :
  table (snd (get_students P w)) = table w
  /\ table (snd (search_students P arg w)) = table w.
Proof.
  split.
  - destruct (committed_rows P GetStudents w)
      as [H|(r & q & cur & w2 & _ & _ & _ & Hc & _)]; [exact H | discriminate].
  - destruct (committed_rows P (SearchStudents arg) w)
      as [H|(r & q & cur & w2 & _ & _ & _ & Hc & _)]; [exact H | discriminate].
Qed.

(** ** Create *)

(** [add_student] when the request reaches the INSERT and the INSERT and
    the commit go through. *)
Lemma add_student_ok (P : platform) (w : world) (d : list (string * pyval))
      (c : Sql.candidate) (rows' : list student) :
  all_required d = true ->
  server w (provider_args (environ w)) = None ->
  fault w AtExecute = None ->
  fault w AtCommit = None ->
  Sql.convert P (bound_params d) = Return c ->
  seq w < Sql.int4_max ->
  Sql.insert (seq w + 1) (clock w) c (table w) = Return rows' ->
  add_student P (Return (PDict d)) w
  = (Return (Response (PDict [("message", PStr "Student added successfully");
                              ("id", PInt (seq w + 1))]) 201),
     set_session None
       (add_log Close
          (add_log CloseCursor
             (set_table rows'
                (add_log Commit
                   (set_session (Some rows')
                      (set_seq (seq w + 1)
                         (add_log (Execute (InsertRow (bound_params d)))
                            (connected w))))))))).
Proof.
  intros Hreq Hsrv Hfx Hfc Hconv Hlt Hins.
  rewrite (add_student_valid P d w Hreq), (get_db_connection_connected w Hsrv).
  pose proof (execute_insert P (bound_params d) (connected w) (table w) c
                eq_refl Hfx Hconv Hlt) as Hx.
  cbn [seq clock connected set_session set_broken add_log] in Hx.
  rewrite Hins in Hx.
  unfold try_except. unfold bind at 1. rewrite Hx.
  unfold bind, lift, commit, cursor_close, emit, close, ret. simpl.
  rewrite Hfc. reflexivity.
Qed.

(** An INSERT whose id, [student_id] and [email] are new goes through. *)
Lemma insert_fresh (i : Z) (now : datetime) (c : Sql.candidate) (rows : list student)
      (sid nm em : string) :
  Sql.c_student_id c = Some sid -> Sql.c_name c = Some nm -> Sql.c_email c = Some em ->
  (forall r, In r rows ->
             Student.id r <> i /\ Student.student_id r <> sid /\ Student.email r <> em) ->
  Sql.insert i now c rows
  = Return (rows ++ [Student.Row i sid nm em (Sql.c_phone c) (Sql.c_course c)
                       (Sql.c_year c) (Sql.c_address c) (Some now)]).
Proof.
  intros Hsid Hnm Hem Hfresh. unfold Sql.insert. rewrite Hsid, Hnm, Hem.
  match goal with |- context [existsb ?f rows] => destruct (existsb f rows) eqn:Hex end;
    [|reflexivity].
  exfalso. apply existsb_exists in Hex. destruct Hex as (r & Hr & Hc).
  destruct (Hfresh r Hr) as (H1 & H2 & H3).
  apply orb_prop in Hc. destruct Hc as [Hc|Hc].
  - apply orb_prop in Hc. destruct Hc as [Hc|Hc].
    + apply Z.eqb_eq in Hc. contradiction.
    + apply String.eqb_eq in Hc. contradiction.
  - apply String.eqb_eq in Hc. contradiction.
Qed.

(** The next id of the sequence is the id of no row. *)
Lemma ids_drawn_fresh (rows : list student) (n : Z) (r : student) :
  ids_drawn rows n -> In r rows -> Student.id r <> n + 1.
Proof.
  unfold ids_drawn. rewrite Forall_forall. intros H Hin. specialize (H r Hin). lia.
Qed.

(** X8: a create request with a new [student_id] and a new [email] that
    reaches the INSERT (validation passes, the connection is obtained,
    nothing fails, every value is acceptable to its column, the id
    sequence has not reached the largest INTEGER) is answered 201 with
    the next id of the sequence, an INTEGER above every id of the table;
    the table gains exactly one row, at its end, holding that id, the
    values bound to the statement as their columns store them and the
    time of the insert. *)
Theorem add_student_creates (P : platform) (w : world) (d : list (string * pyval))
        (c : Sql.candidate) (sid nm em : string) :
  all_required d = true ->
  server w (provider_args (environ w)) = None ->
  fault w AtExecute = None ->
  fault w AtCommit = None ->
  Sql.convert P (bound_params d) = Return c ->
  Sql.c_student_id c = Some sid -> Sql.c_name c = Some nm -> Sql.c_email c = Some em ->
  (forall r, In r (table w) -> Student.student_id r <> sid /\ Student.email r <> em) ->
  ids_drawn (table w) (seq w) ->
  seq w < Sql.int4_max ->
  fst (add_student P (Return (PDict d)) w)
  = Return (Response (PDict [("message", PStr "Student added successfully");
                             ("id", PInt (seq w + 1))]) 201)
  /\ table (snd (add_student P (Return (PDict d)) w))
     = table w ++ [Student.Row (seq w + 1) sid nm em (Sql.c_phone c) (Sql.c_course c)
                     (Sql.c_year c) (Sql.c_address c) (Some (clock w))]
  /\ (forall r, In r (table w) -> Student.id r < seq w + 1)
  /\ seq w + 1 <= Sql.int4_max
  /\ seq (snd (add_student P (Return (PDict d)) w)) = seq w + 1.
Proof.
  intros Hreq Hsrv Hfx Hfc Hconv Hsid Hnm Hem Hnew Hd Hlt.
  assert (Hins : Sql.insert (seq w + 1) (clock w) c (table w)
                 = Return (table w ++ [Student.Row (seq w + 1) sid nm em (Sql.c_phone c)
                                         (Sql.c_course c) (Sql.c_year c) (Sql.c_address c)
                                         (Some (clock w))])).
  { apply insert_fresh; try assumption. intros r Hr.
    split; [exact (ids_drawn_fresh _ _ r Hd Hr) | exact (Hnew r Hr)]. }
  rewrite (add_student_ok P w d c _ Hreq Hsrv Hfx Hfc Hconv Hlt Hins).
  split; [reflexivity|]. split; [reflexivity|].
  split; [|split; [lia | reflexivity]].
  intros r Hr. unfold ids_drawn in Hd. rewrite Forall_forall in Hd.
  specialize (Hd r Hr). lia.
Qed.

Lemma add_student_creates_witness :
  fst (add_student sample_platform
         (Return (PDict [("student_id", PStr "S3"); ("name", PStr "Cy");
                         ("email", PStr "c@x.com")])) sample_world)
  = Return (Response (PDict [("message", PStr "Student added successfully");
                             ("id", PInt 3)]) 201)
  /\ table (snd (add_student sample_platform
                   (Return (PDict [("student_id", PStr "S3"); ("name", PStr "Cy");
                                   ("email", PStr "c@x.com")])) sample_world))
     = [ana; bob;
        Student.Row 3 "S3" "Cy" "c@x.com" (Some "") (Some "") None (Some "")
          (Some (Datetime 2024 2 1 12 0 0))].
Proof.
  destruct (add_student_creates sample_platform sample_world
              [("student_id", PStr "S3"); ("name", PStr "Cy"); ("email", PStr "c@x.com")]
              (Sql.Candidate (Some "S3") (Some "Cy") (Some "c@x.com")
                 (Some "") (Some "") None (Some ""))
              "S3" "Cy" "c@x.com")
    as (Hanswer & Htable & _); try reflexivity.
  - simpl. intros r [<-|[<-|[]]]; split; discriminate.
  - repeat constructor; simpl; lia.
  - split; [exact Hanswer | exact Htable].
Defined.

(** At the end of the sequence no row is created: the INSERT is refused
    and the request answered 500. *)
Lemma add_student_sequence_exhausted :
  fst (add_student sample_platform
         (Return (PDict [("student_id", PStr "S3"); ("name", PStr "Cy");
                         ("email", PStr "c@x.com")]))
         (set_seq Sql.int4_max sample_world))
  = Return (error_response (message sample_platform SequenceLimit) 500).
Proof. reflexivity. Qed.

(** A row whose id is above all others comes first in the listing. *)
Lemma order_by_id_desc_snoc (rows : list student) (x : student) :
  Forall (fun r => Student.id r < Student.id x) rows ->
  Sql.order_by_id_desc (rows ++ [x]) = x :: Sql.order_by_id_desc rows.
Proof.
  induction rows as [|a rows IH]; intros Hall; [reflexivity|].
  inversion Hall as [|a' l Ha Hall' [Ea El]]; subst.
  simpl. rewrite (IH Hall'). simpl.
  destruct (Z.leb_spec (Student.id x) (Student.id a)); [lia | reflexivity].
Qed.

(** X9: create, then list: after a create request answered 201 under
    the conditions of X8, [get_students] answers with the new record
    first, before the records listed until then, which follow as they
    were; its dict holds the id returned by the create request and the
    values bound to the statement as their columns store them. *)
Theorem add_student_then_get_students (P : platform) (w : world)
        (d : list (string * pyval)) (c : Sql.candidate) (sid nm em : string) :
  all_required d = true ->
  server w (provider_args (environ w)) = None ->
  fault w AtExecute = None ->
  fault w AtCommit = None ->
  Sql.convert P (bound_params d) = Return c ->
  Sql.c_student_id c = Some sid -> Sql.c_name c = Some nm -> Sql.c_email c = Some em ->
  (forall r, In r (table w) -> Student.student_id r <> sid /\ Student.email r <> em) ->
  ids_drawn (table w) (seq w) ->
  seq w < Sql.int4_max ->
  fst (add_student P (Return (PDict d)) w)
  = Return (Response (PDict [("message", PStr "Student added successfully");
                             ("id", PInt (seq w + 1))]) 201)
  /\ fst (get_students P (snd (add_student P (Return (PDict d)) w)))
     = Return (Response
                 (PList (student_dict P
                           (Student.Row (seq w + 1) sid nm em (Sql.c_phone c)
                              (Sql.c_course c) (Sql.c_year c) (Sql.c_address c)
                              (Some (clock w)))
                         :: map (student_dict P) (Sql.order_by_id_desc (table w)))) 200).
Proof.
  intros Hreq Hsrv Hfx Hfc Hconv Hsid Hnm Hem Hnew Hd Hlt.
  assert (Hins : Sql.insert (seq w + 1) (clock w) c (table w)
                 = Return (table w ++ [Student.Row (seq w + 1) sid nm em (Sql.c_phone c)
                                         (Sql.c_course c) (Sql.c_year c) (Sql.c_address c)
                                         (Some (clock w))])).
  { apply insert_fresh; try assumption. intros r Hr.
    split; [exact (ids_drawn_fresh _ _ r Hd Hr) | exact (Hnew r Hr)]. }
  rewrite (add_student_ok P w d c _ Hreq Hsrv Hfx Hfc Hconv Hlt Hins). cbn [fst snd].
  split; [reflexivity|].
  rewrite get_students_ok; [|exact Hsrv | exact Hfx].
  cbn [fst table set_session add_log set_table].
  rewrite order_by_id_desc_snoc; [reflexivity|].
  unfold ids_drawn in Hd. eapply Forall_impl; [|exact Hd].
  intros r Hr. simpl in Hr |- *. lia.
Qed.

Lemma add_student_then_get_students_witness :
  fst (get_students sample_platform
         (snd (add_student sample_platform
                 (Return (PDict [("student_id", PStr "S3"); ("name", PStr "Cy");
                                 ("email", PStr "c@x.com")])) sample_world)))
  = Return (Response
              (PList [PDict [("id", PInt 3); ("student_id", PStr "S3");
                             ("name", PStr "Cy"); ("email", PStr "c@x.com");
                             ("phone", PStr ""); ("course", PStr ""); ("year", PNone);
                             ("address", PStr "");
                             ("created_at", PStr "2024-02-01 12:00:00")];
                      student_dict sample_platform bob;
                      student_dict sample_platform ana]) 200).
Proof.
  refine (proj2 (add_student_then_get_students sample_platform sample_world
                   [("student_id", PStr "S3"); ("name", PStr "Cy");
                    ("email", PStr "c@x.com")]
                   (Sql.Candidate (Some "S3") (Some "Cy") (Some "c@x.com")
                      (Some "") (Some "") None (Some ""))
                   "S3" "Cy" "c@x.com"
                   eq_refl eq_refl eq_refl eq_refl eq_refl eq_refl eq_refl eq_refl
                   _ _ _)).
  - simpl. intros r [<-|[<-|[]]]; split; discriminate.
  - repeat constructor; simpl; lia.
  - reflexivity.
Defined.

(** ** Delete *)

Lemma delete_student_ok (P : platform) (w : world) (r0 : student) :
  server w (provider_args (environ w)) = None ->
  fault w AtExecute = None ->
  fault w AtCommit = None ->
  In r0 (table w) ->
  delete_student P (Student.id r0) w
  = (Return (Response (PDict [("message", PStr "Student deleted successfully")]) 200),
     set_session None
       (add_log Close
          (add_log CloseCursor
             (set_table (fst (Sql.delete (Student.id r0) (table w)))
                (add_log Commit
                   (set_session (Some (fst (Sql.delete (Student.id r0) (table w))))
                      (add_log (Execute (DeleteById (Student.id r0))) (connected w)))))))).
Proof.
  intros Hsrv Hfx Hfc Hin. unfold delete_student. unfold bind at 1.
  rewrite (get_db_connection_connected w Hsrv).
  unfold try_except. unfold bind at 1. unfold execute. simpl. rewrite Hfx.
  assert (Hhit : In r0 (filter (fun r => Student.id r =? Student.id r0) (table w)))
    by (apply filter_In; split; [exact Hin | apply Z.eqb_refl]).
  destruct (filter (fun r => Student.id r =? Student.id r0) (table w)) as [|h hit];
    [destruct Hhit|].
  simpl. unfold bind, commit, cursor_close, emit, close, ret. simpl.
  rewrite Hfc. reflexivity.
Qed.

Lemma filter_split_length {A : Type} (p : A -> bool) (l : list A) :
  (List.length (filter p l) + List.length (filter (fun x => negb (p x)) l))%nat
  = List.length l.
Proof.
  induction l as [|a l IH]; simpl; [reflexivity|].
  destruct (p a); simpl; lia.
Qed.

(** X10: a delete of the id of a row, when the connection is obtained
    and nothing fails, is answered 200 and removes the rows of that id
    and no other: a row is in the table afterwards exactly when it was
    there with another id, in the same order; with [id] a key, the table
    has one row less. *)
Theorem delete_student_removes (P : platform) (w : world) (r0 : student) :
  server w (provider_args (environ w)) = None ->
  fault w AtExecute = None ->
  fault w AtCommit = None ->
  In r0 (table w) ->
  fst (delete_student P (Student.id r0) w)
  = Return (Response (PDict [("message", PStr "Student deleted successfully")]) 200)
  /\ table (snd (delete_student P (Student.id r0) w))
     = filter (fun r => negb (Student.id r =? Student.id r0)) (table w)
  /\ (forall r, In r (table (snd (delete_student P (Student.id r0) w)))
                <-> In r (table w) /\ Student.id r <> Student.id r0)
  /\ (NoDup (map Student.id (table w)) ->
      S (List.length (table (snd (delete_student P (Student.id r0) w))))
      = List.length (table w)).
Proof.
  intros Hsrv Hfx Hfc Hin.
  rewrite (delete_student_ok P w r0 Hsrv Hfx Hfc Hin). cbn [fst snd table set_session
    add_log set_table Sql.delete].
  split; [reflexivity|]. split; [reflexivity|]. split.
  - intros r. rewrite filter_In. rewrite negb_true_iff, Z.eqb_neq. reflexivity.
  - intros Hnd.
    pose proof (filter_split_length (fun r => Student.id r =? Student.id r0) (table w)) as Hlen.
    rewrite (filter_id_one (table w) r0 Hnd Hin) in Hlen. simpl in Hlen. exact Hlen.
Qed.

Lemma delete_student_removes_witness :
  fst (delete_student sample_platform 1 sample_world)
  = Return (Response (PDict [("message", PStr "Student deleted successfully")]) 200)
  /\ table (snd (delete_student sample_platform 1 sample_world)) = [bob].
Proof.
  destruct (delete_student_removes sample_platform sample_world ana)
    as (Hanswer & Htable & _); try reflexivity.
  - simpl. auto.
  - split; [exact Hanswer | exact Htable].
Defined.

(** X11: a delete whose id is that of no row never changes the committed
    table, whatever happens; when the connection is obtained and the
    server does not fail it is answered 404 [Student not found], after
    connect, the DELETE and rollback. *)
Theorem delete_student_unknown_id (P : platform) (w : world) (id : Z) :
  (forall r, In r (table w) -> Student.id r <> id) ->
  table (snd (delete_student P id w)) = table w
  /\ (server w (provider_args (environ w)) = None ->
      fault w AtExecute = None ->
      fst (delete_student P id w) = Return (error_response "Student not found" 404)
      /\ log (snd (delete_student P id w))
         = log w ++ [Connect (provider_args (environ w)); Execute (DeleteById id); Rollback]).
Proof.
  intros Hno. split.
  - destruct (committed_rows P (DeleteStudent id) w)
      as [H|(r & q & cur & w2 & _ & _ & Hq & _ & Hx & Hs2)]; [exact H|].
    simpl in Hq. injection Hq as <-.
    destruct (execute_return P (DeleteById id) (connected w) w2 cur (table w) eq_refl Hx)
      as [-> _].
    simpl in Hs2. injection Hs2 as Hs2. unfold handle. rewrite <- Hs2.
    apply forallb_filter_id. apply forallb_forall. intros r0 Hr0.
    apply negb_true_iff, Z.eqb_neq. exact (Hno r0 Hr0).
  - intros Hsrv Hfx.
    assert (Hrun : exists w',
               delete_student P id w = (Return (error_response "Student not found" 404), w')
               /\ log w' = log w ++ [Connect (provider_args (environ w));
                                     Execute (DeleteById id); Rollback]).
    { unfold delete_student. unfold bind at 1.
      rewrite (get_db_connection_connected w Hsrv).
      unfold try_except. unfold bind at 1. unfold execute. simpl. rewrite Hfx.
      rewrite (filter_none id (table w) Hno). simpl.
      eexists. split; [reflexivity|]. simpl. repeat rewrite <- app_assoc. reflexivity. }
    destruct Hrun as (w' & -> & Hl). split; [reflexivity | exact Hl].
Qed.

Lemma delete_student_unknown_id_witness :
  table (snd (delete_student sample_platform 9 sample_world)) = [ana; bob]
  /\ fst (delete_student sample_platform 9 sample_world)
     = Return (error_response "Student not found" 404).
Proof.
  destruct (delete_student_unknown_id sample_platform sample_world 9)
    as (Htable & Hanswer).
  - simpl. intros r [<-|[<-|[]]]; discriminate.
  - split; [exact Htable|]. apply Hanswer; reflexivity.
Defined.

(** X12: delete, then list: after a delete answered 200 under the
    conditions of X10, [get_students] lists exactly the rows that were in
    the table with another id, from the highest id down: the deleted id
    is no longer listed. *)
Theorem delete_student_then_get_students (P : platform) (w : world) (r0 : student) :
  server w (provider_args (environ w)) = None ->
  fault w AtExecute = None ->
  fault w AtCommit = None ->
  In r0 (table w) ->
  exists out,
    fst (get_students P (snd (delete_student P (Student.id r0) w)))
    = Return (Response (PList (map (student_dict P) out)) 200)
    /\ (forall r, In r out <-> In r (table w) /\ Student.id r <> Student.id r0)
    /\ descending out.
Proof.
  intros Hsrv Hfx Hfc Hin.
  exists (Sql.order_by_id_desc
            (filter (fun r => negb (Student.id r =? Student.id r0)) (table w))).
  rewrite (delete_student_ok P w r0 Hsrv Hfx Hfc Hin). cbn [snd].
  rewrite get_students_ok; [|exact Hsrv | exact Hfx].
  split; [reflexivity|]. split; [|apply order_by_id_desc_descending].
  intros r. split.
  - intros H. apply (Permutation_in _ (order_by_id_desc_perm _)) in H.
    apply filter_In in H. rewrite negb_true_iff, Z.eqb_neq in H. exact H.
  - intros H. apply (Permutation_in _ (Permutation_sym (order_by_id_desc_perm _))).
    apply filter_In. rewrite negb_true_iff, Z.eqb_neq. exact H.
Qed.

Lemma delete_student_then_get_students_witness :
  exists out,
    fst (get_students sample_platform (snd (delete_student sample_platform 1 sample_world)))
    = Return (Response (PList (map (student_dict sample_platform) out)) 200)
    /\ (forall r, In r out <-> In r [ana; bob] /\ Student.id r <> 1)
    /\ descending out.
Proof.
  apply (delete_student_then_get_students sample_platform sample_world ana);
    try reflexivity.
  simpl. auto.
Defined.

(** ** Update *)

Lemma overwrite_others (i : Z) (sid nm em : string) (c : Sql.candidate)
      (rows : list student) :
  filter (fun r => negb (Student.id r =? i))
    (map (fun r => if Student.id r =? i then Sql.overwrite sid nm em c r else r) rows)
  = filter (fun r => negb (Student.id r =? i)) rows.
Proof.
  induction rows as [|a l IH]; [reflexivity|].
  simpl. destruct (Student.id a =? i) eqn:E; simpl; rewrite E; simpl.
  - exact IH.
  - f_equal. exact IH.
Qed.

(** X13: whatever the body and whatever the world, [update_student]
    never adds, removes or reorders rows and never changes the [id] or
    the [created_at] of a row, and it leaves every row of another id as
    it was. *)
Theorem update_student_keeps_identity (P : platform) (w : world) (id : Z)
        (request_json : result pyval) :
  map (fun r => (Student.id r, Student.created_at r))
    (table (snd (update_student P id request_json w)))
  = map (fun r => (Student.id r, Student.created_at r)) (table w)
  /\ filter (fun r => negb (Student.id r =? id))
       (table (snd (update_student P id request_json w)))
     = filter (fun r => negb (Student.id r =? id)) (table w).
Proof.
  destruct (committed_rows P (UpdateStudent id request_json) w)
    as [H|(r & q & cur & w2 & _ & _ & Hq & _ & Hx & Hs2)].
  - unfold handle in H. rewrite H. split; reflexivity.
  - unfold handle in Hs2.
    destruct request_json as [data|]; [|discriminate].
    destruct data as [| | | | |d]; try discriminate.
    simpl in Hq. injection Hq as <-.
    destruct (execute_return P _ (connected w) w2 cur (table w) eq_refl Hx)
      as (c & rows' & _ & Hu & ->).
    simpl in Hs2. injection Hs2 as Hs2. rewrite <- Hs2.
    destruct (update_rows _ _ _ _ _ Hu)
      as [(-> & _ & _)|(sid & nm & em & _ & _ & _ & -> & _)]; [split; reflexivity|].
    split.
    + rewrite map_map. apply map_ext. intros a. simpl.
      destruct (Student.id a =? id); reflexivity.
    + apply overwrite_others.
Qed.

(** The UPDATE of an existing row to a [student_id] or [email] held by
    another row is refused with an integrity error. *)
Lemma update_collision (i : Z) (c : Sql.candidate) (rows : list student)
      (r0 r1 : student) :
  In r0 rows -> Student.id r0 = i ->
  In r1 rows -> Student.id r1 <> i ->
  Sql.c_student_id c = Some (Student.student_id r1)
  \/ Sql.c_email c = Some (Student.email r1) ->
  exists e, Sql.update i c rows = Raise e /\ is_integrity e = true.
Proof.
  intros H0 Hid0 H1 Hid1 Hdup. unfold Sql.update.
  assert (Hhit : In r0 (filter (fun r => Student.id r =? i) rows))
    by (apply filter_In; split; [exact H0 | apply Z.eqb_eq; exact Hid0]).
  destruct (filter (fun r => Student.id r =? i) rows) as [|h hit]; [destruct Hhit|].
  destruct (Sql.c_student_id c) as [sid|]; [|eexists; split; reflexivity].
  destruct (Sql.c_name c) as [nm|]; [|eexists; split; reflexivity].
  destruct (Sql.c_email c) as [em|]; [|eexists; split; reflexivity].
  match goal with |- context [existsb ?f rows] =>
    assert (Hex : existsb f rows = true) end.
  { apply existsb_exists. exists r1. split; [exact H1|].
    apply Z.eqb_neq in Hid1. rewrite Hid1. simpl.
    destruct Hdup as [[= ->]|[= ->]]; rewrite String.eqb_refl, ?orb_true_r; reflexivity. }
  rewrite Hex. eexists; split; reflexivity.
Qed.

(** X14: an update of an existing id whose [student_id] or [email] is
    that of another row never changes the committed table, whatever else
    happens; when the request reaches the UPDATE (the connection is
    obtained, the server does not fail, every value is acceptable to its
    column) it is answered 400 [Student ID or Email already exists] after
    connect, the UPDATE and rollback. *)
Theorem update_student_conflict (P : platform) (w : world) (d : list (string * pyval))
        (r0 r1 : student) :
  In r0 (table w) ->
  In r1 (table w) ->
  Student.id r1 <> Student.id r0 ->
  Sql.to_varchar P 20 (item d "student_id" PNone) = Return (Some (Student.student_id r1))
  \/ Sql.to_varchar P 100 (item d "email" PNone) = Return (Some (Student.email r1)) ->
  table (snd (update_student P (Student.id r0) (Return (PDict d)) w)) = table w
  /\ (server w (provider_args (environ w)) = None ->
      fault w AtExecute = None ->
      (exists c, Sql.convert P (bound_params d) = Return c) ->
      fst (update_student P (Student.id r0) (Return (PDict d)) w)
      = Return (error_response "Student ID or Email already exists" 400)
      /\ log (snd (update_student P (Student.id r0) (Return (PDict d)) w))
         = log w ++ [Connect (provider_args (environ w));
                     Execute (UpdateById (bound_params d) (Student.id r0));
                     Rollback]).
Proof.
  intros H0 H1 Hne Hdup.
  assert (Hrefused : forall c, Sql.convert P (bound_params d) = Return c ->
                               exists e, Sql.update (Student.id r0) c (table w) = Raise e
                                         /\ is_integrity e = true).
  { intros c Hconv. destruct (convert_fields P _ c Hconv) as (C1 & _ & C3 & _).
    simpl in C1, C3.
    apply (update_collision _ c (table w) r0 r1 H0 eq_refl H1 Hne).
    destruct Hdup as [Hd|Hd]; [left | right]; congruence. }
  split.
  - destruct (committed_rows P (UpdateStudent (Student.id r0) (Return (PDict d))) w)
      as [H|(r & q & cur & w2 & _ & _ & Hq & _ & Hx & _)]; [exact H|].
    simpl in Hq. injection Hq as <-.
    destruct (execute_return P _ (connected w) w2 cur (table w) eq_refl Hx)
      as (c & rows' & Hconv & Hu & _).
    destruct (Hrefused c Hconv) as (e & He & _). congruence.
  - intros Hsrv Hfx [c Hconv].
    destruct (Hrefused c Hconv) as (e & He & Hint).
    assert (Hrun : exists w',
               update_student P (Student.id r0) (Return (PDict d)) w
               = (Return (error_response "Student ID or Email already exists" 400), w')
               /\ log w' = log w ++ [Connect (provider_args (environ w));
                                     Execute (UpdateById (bound_params d) (Student.id r0));
                                     Rollback]).
    { rewrite (update_student_dict P _ d w), (get_db_connection_connected w Hsrv).
      unfold try_except. unfold bind at 1.
      rewrite (execute_update P _ _ (connected w) (table w) c eq_refl Hfx Hconv), He, Hint.
      rewrite (conflict_clause_run _ (table w)) by reflexivity.
      eexists. split; [reflexivity|]. simpl. repeat rewrite <- app_assoc. reflexivity. }
    destruct Hrun as (w' & -> & Hl). split; [reflexivity | exact Hl].
Qed.

Lemma update_student_conflict_witness :
  table (snd (update_student sample_platform 1
                (Return (PDict [("student_id", PStr "S2"); ("name", PStr "Ana");
                                ("email", PStr "a@x.com")])) sample_world))
  = [ana; bob]
  /\ fst (update_student sample_platform 1
            (Return (PDict [("student_id", PStr "S2"); ("name", PStr "Ana");
                            ("email", PStr "a@x.com")])) sample_world)
     = Return (error_response "Student ID or Email already exists" 400).
Proof.
  destruct (update_student_conflict sample_platform sample_world
              [("student_id", PStr "S2"); ("name", PStr "Ana"); ("email", PStr "a@x.com")]
              ana bob) as (Htable & Hanswer).
  - simpl. auto.
  - simpl. auto.
  - discriminate.
  - left. reflexivity.
  - split; [exact Htable|]. apply Hanswer; try reflexivity. eexists. reflexivity.
Defined.

(** ** Configuration of the connection *)

Lemma replace_first_prefix (old new s : string) :
  String.prefix old s = true ->
  replace_first old new s = (new ++ drop (String.length old) s)%string.
Proof. intros H. destruct s; simpl; simpl in H; rewrite H; reflexivity. Qed.

Lemma get_db_connection_log (w : world) :
  exists tail,
    log (snd (get_db_connection w))
    = log w ++ Connect (provider_args (environ w)) :: tail.
Proof.
  rewrite get_db_connection_eq. cbv zeta.
  destruct (server w (provider_args (environ w))); simpl.
  - eexists. rewrite <- app_assoc. reflexivity.
  - eexists. reflexivity.
Qed.

(** X15: how [get_db_connection] is configured. A non-empty
    [DATABASE_URL] takes priority over the [DB_*] variables and is used
    with [sslmode=require]; its scheme [postgres://] is rewritten to
    [postgresql://], once, at the start, and any other URL is used as it
    is. Without [DATABASE_URL], or with an empty one, the connection is
    made from [DB_HOST], [DB_NAME], [DB_USER], [DB_PASSWORD], [DB_PORT],
    each with its default. *)
Theorem provider_configuration (w : world) :
  (forall url,
      env_lookup "DATABASE_URL" (environ w) = Some url -> url <> "" ->
      exists tail,
        log (snd (get_db_connection w))
        = log w ++ Connect (Dsn (if startswith url "postgres://"
                                 then "postgresql://" ++ drop 11 url
                                 else url) "require") :: tail)
  /\ (env_lookup "DATABASE_URL" (environ w) = None
      \/ env_lookup "DATABASE_URL" (environ w) = Some "" ->
      exists tail,
        log (snd (get_db_connection w))
        = log w ++ Connect
                     (Keywords
                        (match env_lookup "DB_HOST" (environ w) with
                         | Some v => v | None => "localhost" end)
                        (match env_lookup "DB_NAME" (environ w) with
                         | Some v => v | None => "study" end)
                        (match env_lookup "DB_USER" (environ w) with
                         | Some v => v | None => "postgres" end)
                        (match env_lookup "DB_PASSWORD" (environ w) with
                         | Some v => v | None => "@jk3" end)
                        (match env_lookup "DB_PORT" (environ w) with
                         | Some v => v | None => "5432" end)) :: tail).
Proof.
  destruct (get_db_connection_log w) as [tail Hl]. split.
  - intros url Hurl Hne. exists tail. rewrite Hl. do 3 f_equal.
    unfold provider_args, DATABASE_URL. rewrite Hurl.
    apply String.eqb_neq in Hne. unfold truthy. rewrite Hne. cbn [negb].
    destruct (startswith url "postgres://") eqn:Hp.
    + unfold startswith in Hp. rewrite (replace_first_prefix _ _ _ Hp).
      destruct (("postgresql://" ++ drop (String.length "postgres://") url =? "")%string)
        eqn:E; [apply String.eqb_eq in E; discriminate|].
      reflexivity.
    + rewrite Hne. reflexivity.
  - intros Hnone. exists tail. rewrite Hl. do 2 f_equal.
    unfold provider_args, DATABASE_URL.
    destruct Hnone as [-> | ->]; reflexivity.
Qed.

Lemma provider_configuration_witness :
  exists tail,
    log (snd (get_db_connection
                (World [("DATABASE_URL", "postgres://u:p@db.example/students");
                        ("DB_HOST", "elsewhere")]
                   [] 0 None false (fun _ => None) (fun _ => None)
                   (Datetime 2024 2 1 12 0 0) [])))
    = [] ++ Connect (Dsn "postgresql://u:p@db.example/students" "require") :: tail.
Proof.
  destruct (provider_configuration
              (World [("DATABASE_URL", "postgres://u:p@db.example/students");
                      ("DB_HOST", "elsewhere")]
                 [] 0 None false (fun _ => None) (fun _ => None)
                 (Datetime 2024 2 1 12 0 0) [])) as [Hurl _].
  apply (Hurl "postgres://u:p@db.example/students"); [reflexivity | discriminate].
Defined.

(** The rewritten URL is not rewritten again. *)
Lemma rewritten_scheme_is_final (rest : string) :
  startswith ("postgresql://" ++ rest) "postgres://" = false.
Proof. reflexivity. Qed.

(** ** Search *)

Lemma lower_idempotent (c : ascii) : Sql.lower (Sql.lower c) = Sql.lower c.
Proof. destruct c as [[] [] [] [] [] [] [] []]; reflexivity. Qed.

(** The three characters with a meaning in a pattern are no letters. *)
Lemma lower_special (c : ascii) :
  (Sql.lower c =? "%")%char = (c =? "%")%char
  /\ (Sql.lower c =? "_")%char = (c =? "_")%char
  /\ (Sql.lower c =? "\")%char = (c =? "\")%char.
Proof. destruct c as [[] [] [] [] [] [] [] []]; repeat split; reflexivity. Qed.

Lemma same_char_lower (c d : ascii) :
  Sql.same_char true (Sql.lower c) d = Sql.same_char true c d.
Proof. unfold Sql.same_char. rewrite lower_idempotent. reflexivity. Qed.

(** ILIKE does not see the case of its pattern. *)
Lemma like_lowercase (n : nat) :
  forall p t, (String.length p <= n)%nat ->
              Sql.like true (lowercase p) t = Sql.like true p t.
Proof.
  induction n as [|n IH]; intros p t Hlen.
  - destruct p; [reflexivity | simpl in Hlen; lia].
  - destruct p as [|c p]; [reflexivity|].
    simpl in Hlen. assert (Hp : (String.length p <= n)%nat) by lia.
    destruct (lower_special c) as (L1 & L2 & L3).
    change (lowercase (String c p)) with (String (Sql.lower c) (lowercase p)).
    destruct (c =? "%")%char eqn:E1.
    + apply Ascii.eqb_eq in E1. subst c.
      change (Sql.lower "%") with "%"%char.
      induction t as [|d t IHt].
      * rewrite !like_percent, (IH p _ Hp). reflexivity.
      * rewrite (like_percent true (lowercase p)), (like_percent true p).
        rewrite (IH p _ Hp), IHt. reflexivity.
    + destruct (c =? "_")%char eqn:E2.
      * apply Ascii.eqb_eq in E2. subst c. simpl.
        destruct t as [|d t]; [reflexivity | apply IH; exact Hp].
      * destruct (c =? "\")%char eqn:E3.
        -- apply Ascii.eqb_eq in E3. subst c.
           destruct p as [|c2 p2]; [reflexivity|].
           simpl in Hp. simpl.
           destruct t as [|d t]; [reflexivity|].
           fold (Sql.same_char true (Sql.lower c2) d). fold (Sql.same_char true c2 d).
           rewrite same_char_lower. f_equal. apply IH. lia.
        -- rewrite (like_plain_char true (Sql.lower c) (lowercase p) t)
             by (rewrite L1, L2, L3; reflexivity).
           rewrite (like_plain_char true c p t)
             by (rewrite E1, E2, E3; reflexivity).
           destruct t as [|d t]; [reflexivity|].
           rewrite same_char_lower. f_equal. apply IH. exact Hp.
Qed.

Lemma ilike_pattern_case (p p' t : string) :
  lowercase p = lowercase p' -> Sql.ilike t p = Sql.ilike t p'.
Proof.
  intros H. unfold Sql.ilike.
  rewrite <- (like_lowercase (String.length p) p t (Nat.le_refl _)).
  rewrite <- (like_lowercase (String.length p') p' t (Nat.le_refl _)).
  rewrite H. reflexivity.
Qed.

Lemma search_pattern_case (p p' : string) (rows : list student) :
  lowercase p = lowercase p' -> Sql.search p p rows = Sql.search p' p' rows.
Proof.
  intros H. unfold Sql.search. f_equal. apply filter_ext. intros r.
  rewrite (ilike_pattern_case p p' _ H), (ilike_pattern_case p p' _ H). reflexivity.
Qed.

Lemma lowercase_empty (q : string) : lowercase q = "" -> q = "".
Proof. destruct q; [reflexivity | discriminate]. Qed.

(** NUL is no letter. *)
Lemma has_nul_lowercase (q : string) : Sql.has_nul (lowercase q) = Sql.has_nul q.
Proof.
  induction q as [|c q IH]; [reflexivity|].
  simpl. rewrite IH. f_equal.
  destruct c as [[] [] [] [] [] [] [] []]; reflexivity.
Qed.

(** X17: search does not see the case of the query: two queries that
    differ only in the case of their letters get the same answer, in
    every world and whatever characters the query holds. *)
Theorem search_students_ignores_query_case (P : platform) (w : world) (q q' : string) :
  lowercase q = lowercase q' ->
  fst (search_students P (Some q) w) = fst (search_students P (Some q') w).
Proof.
  intros Hcase.
  destruct (String.eqb_spec q "") as [->|Hne].
  - symmetry in Hcase. apply lowercase_empty in Hcase. subst q'. reflexivity.
  - assert (Hne' : q' <> "").
    { intros ->. apply Hne. apply lowercase_empty. exact Hcase. }
    rewrite (search_students_answer P w q Hne), (search_students_answer P w q' Hne').
    rewrite <- (has_nul_lowercase q), <- (has_nul_lowercase q'), Hcase.
    rewrite (search_pattern_case ("%" ++ q ++ "%") ("%" ++ q' ++ "%") (table w));
      [reflexivity|].
    rewrite !lowercase_app, Hcase. reflexivity.
Qed.

Lemma search_students_ignores_query_case_witness :
  fst (search_students sample_platform (Some "BoB") sample_world)
  = fst (search_students sample_platform (Some "bob") sample_world).
Proof.
  apply (search_students_ignores_query_case sample_platform sample_world "BoB" "bob").
  reflexivity.
Defined.



(** A query with a NUL character is answered 500: psycopg2 refuses the
    pattern and nothing is sent. *)
Lemma search_students_nul_query (P : platform) (w : world) (q : string) :
  Sql.has_nul q = true ->
  server w (provider_args (environ w)) = None ->
  fst (search_students P (Some q) w)
  = Return (error_response "A string literal cannot contain NUL (0x00) characters." 500).
Proof.
  intros Hn Hsrv.
  assert (Hne : q <> "") by (intros ->; discriminate).
  rewrite (search_students_answer P w q Hne), Hsrv, Hn. reflexivity.
Qed.



(** ** Start-up *)

(** [init_db] in closed form, by what the server does. *)
Lemma init_db_eq (s : startup) :
  init_db s =
  let w := base s in
  match server w (provider_args (environ w)) with
  | Some e => (Return tt, Startup (unreachable w e) (present s) (creating s))
  | None =>
      match fault w AtExecute with
      | Some f =>
          (Return tt,
           Startup (add_log (Stdout ("Error initializing database: " ++ exn_msg (raised f)))
                      (fail f (connected w))) (present s) false)
      | None =>
          match fault w AtCommit with
          | Some f =>
              (Return tt,
               Startup (add_log
                          (Stdout ("Error initializing database: " ++ exn_msg (raised f)))
                          (fail f (add_log Commit (connected w))))
                 (present s) (negb (present s)))
          | None =>
              (Return tt,
               Startup (add_log (Stdout "Database initialized successfully")
                          (set_session None
                             (add_log Close
                                (add_log CloseCursor
                                   (set_table (table w) (add_log Commit (connected w)))))))
                 true false)
          end
      end
  end.
Proof.
  unfold init_db, connect_startup. cbv zeta.
  destruct (server (base s) (provider_args (environ (base s)))) as [e0|] eqn:Hsrv.
  - rewrite (get_db_connection_unreachable _ e0 Hsrv). reflexivity.
  - rewrite (get_db_connection_connected _ Hsrv).
    unfold create_table_if_not_exists. cbn [base present creating].
    change (fault (connected (base s))) with (fault (base s)).
    destruct (fault (base s) AtExecute) as [f|] eqn:Hfx; [reflexivity|].
    cbn [session connected set_session].
    unfold commit_startup, commit. cbn [base present creating].
    change (fault (add_log Commit (connected (base s)))) with (fault (base s)).
    destruct (fault (base s) AtCommit) as [f|] eqn:Hfc; [reflexivity|].
    cbn. destruct (present s); reflexivity.
Qed.

(** X19: [init_db] never raises and is never fatal: in every world it
    returns; it leaves the rows of the table and the sequence as they
    were, and a table that exists still exists afterwards. When the
    server cannot be reached it does nothing but the failed connection
    attempt. *)
Theorem init_db_is_safe (s : startup) :
  fst (init_db s) = Return tt
  /\ table (base (snd (init_db s))) = table (base s)
  /\ seq (base (snd (init_db s))) = seq (base s)
  /\ (present s = true -> present (snd (init_db s)) = true)
  /\ (forall e, server (base s) (provider_args (environ (base s))) = Some e ->
                snd (init_db s) = Startup (unreachable (base s) e) (present s) (creating s)).
Proof.
  rewrite init_db_eq. cbv zeta.
  destruct (server (base s) (provider_args (environ (base s)))) as [e0|].
  - repeat split; try reflexivity; [auto | intros e [= <-]; reflexivity].
  - destruct (fault (base s) AtExecute);
      [repeat split; try reflexivity; [auto | discriminate]|].
    destruct (fault (base s) AtCommit);
      repeat split; try reflexivity; try discriminate; auto.
Qed.

(** X20: when the server is reachable and does not fail, [init_db]
    leaves the table in the catalog, created if it was missing and
    untouched if it was there, commits, closes its connection and prints
    its success message. *)
Theorem init_db_creates (s : startup) :
  server (base s) (provider_args (environ (base s))) = None ->
  fault (base s) AtExecute = None ->
  fault (base s) AtCommit = None ->
  present (snd (init_db s)) = true
  /\ creating (snd (init_db s)) = false
  /\ table (base (snd (init_db s))) = table (base s)
  /\ session (base (snd (init_db s))) = None
  /\ log (base (snd (init_db s)))
     = log (base s) ++ [Connect (provider_args (environ (base s))); Commit; CloseCursor;
                        Close; Stdout "Database initialized successfully"].
Proof.
  intros Hsrv Hfx Hfc. rewrite init_db_eq. cbv zeta. rewrite Hsrv, Hfx, Hfc.
  repeat split. simpl. repeat rewrite <- app_assoc. reflexivity.
Qed.

Lemma init_db_creates_witness :
  present (snd (init_db (Startup sample_world false false))) = true
  /\ table (base (snd (init_db (Startup sample_world false false)))) = [ana; bob].
Proof.
  destruct (init_db_creates (Startup sample_world false false))
    as (Hpresent & _ & Htable & _); try reflexivity.
  split; [exact Hpresent | exact Htable].
Defined.

(** X21: [init_db] is idempotent: in every world, running it again
    after it has run changes neither the catalog nor the rows; it is safe
    on every start. *)
Theorem init_db_idempotent (s : startup) :
  present (snd (init_db (snd (init_db s)))) = present (snd (init_db s))
  /\ table (base (snd (init_db (snd (init_db s))))) = table (base (snd (init_db s)))
  /\ seq (base (snd (init_db (snd (init_db s))))) = seq (base (snd (init_db s))).
Proof.
  rewrite (init_db_eq (snd (init_db s))). cbv zeta.
  rewrite (init_db_eq s). cbv zeta.
  destruct (server (base s) (provider_args (environ (base s)))) as [e0|] eqn:Hsrv.
  - cbn [snd base unreachable add_log environ server]. rewrite Hsrv. repeat split.
  - destruct (fault (base s) AtExecute) as [f|] eqn:Hfx.
    + cbn [snd base connected add_log set_session set_broken fail environ server fault].
      rewrite Hsrv, Hfx. repeat split.
    + destruct (fault (base s) AtCommit) as [f|] eqn:Hfc.
      * cbn [snd base connected add_log set_session set_broken fail environ server fault].
        rewrite Hsrv, Hfx, Hfc. repeat split.
      * cbn [snd base connected add_log set_session set_broken set_table environ server
               fault].
        rewrite Hsrv, Hfx, Hfc. repeat split.
Qed.
